(** * fast-jwt: the signing and verification core ([src/crypto.js])

    A shallow embedding of [createSignature], [verifySignature], the two key
    validators and the URL-safe replacer of [src/crypto.js], with the
    statements the specification makes about them.

    The file calls into Node's [crypto] module and into [ecdsa-sig-formatter].
    Those are not part of the repository: the hash and signature primitives
    are kept abstract in a [Runtime] record, while the parts of Node that are
    plain data manipulation (strings as sequences of UTF-16 code units, the
    base64 text of a [Buffer], the lenient base64 reader of [Buffer.from],
    [timingSafeEqual]) are written out. *)

From Stdlib Require Import List String Ascii Bool Arith NArith ZArith Lia.
From Stdlib.Strings Require Import Byte.
Import ListNotations.

Set Warnings "-register-all".

Local Open Scope list_scope.
Local Open Scope string_scope.

(** ** JavaScript strings *)

(** A JavaScript string is a sequence of UTF-16 code units: [slice] cuts it
    by units, and [Buffer.from(s, 'base64')] reads it unit by unit.  Here a
    string is written as its UTF-8 text, the way the source files hold it
    (an unpaired surrogate, which [slice] can leave behind, as the three
    bytes of its value), and [units] reads the code units off that text.
    Bytes that are no such text stand for no JavaScript string; to be
    defined on them too, [units] reads each as U+FFFD, as a UTF-8 decoder
    does. *)
Module Utf16.

Local Open Scope N_scope.

Definition continuation (c : ascii) : bool :=
  (128 <=? N_of_ascii c) && (N_of_ascii c <? 192).

Definition low6 (c : ascii) : N := N.land (N_of_ascii c) 63.

Definition code_point2 (c0 c1 : ascii) : N :=
  N.shiftl (N.land (N_of_ascii c0) 31) 6 + low6 c1.

Definition code_point3 (c0 c1 c2 : ascii) : N :=
  N.shiftl (N.land (N_of_ascii c0) 15) 12 + N.shiftl (low6 c1) 6 + low6 c2.

Definition code_point4 (c0 c1 c2 c3 : ascii) : N :=
  N.shiftl (N.land (N_of_ascii c0) 7) 18 + N.shiftl (low6 c1) 12
  + N.shiftl (low6 c2) 6 + low6 c3.

(** The one or two code units of a code point. *)
Definition units_of_code_point (cp : N) : list N :=
  if cp <? 65536 then [cp]
  else [55296 + N.shiftr (cp - 65536) 10; 56320 + N.land (cp - 65536) 1023].

Fixpoint units (s : string) : list N :=
  match s with
  | EmptyString => []
  | String c0 r0 =>
      let b0 := N_of_ascii c0 in
      if b0 <? 128 then b0 :: units r0
      else
        match r0 with
        | EmptyString => [65533]
        | String c1 r1 =>
            if (194 <=? b0) && (b0 <? 224) && continuation c1 then
              code_point2 c0 c1 :: units r1
            else
              match r1 with
              | EmptyString => 65533 :: units r0
              | String c2 r2 =>
                  if (224 <=? b0) && (b0 <? 240) && continuation c1
                     && continuation c2 && (2048 <=? code_point3 c0 c1 c2) then
                    code_point3 c0 c1 c2 :: units r2
                  else
                    match r2 with
                    | EmptyString => 65533 :: units r0
                    | String c3 r3 =>
                        if (240 <=? b0) && (b0 <? 245) && continuation c1
                           && continuation c2 && continuation c3
                           && (65536 <=? code_point4 c0 c1 c2 c3)
                           && (code_point4 c0 c1 c2 c3 <? 1114112) then
                          (units_of_code_point (code_point4 c0 c1 c2 c3)
                           ++ units r3)%list
                        else 65533 :: units r0
                    end
              end
        end
  end.

Definition high_surrogate (u : N) : bool := (55296 <=? u) && (u <? 56320).
Definition low_surrogate (u : N) : bool := (56320 <=? u) && (u <? 57344).

Definition utf8 (cp : N) : string :=
  if cp <? 128 then String (ascii_of_N cp) ""
  else if cp <? 2048 then
    String (ascii_of_N (192 + N.shiftr cp 6))
      (String (ascii_of_N (128 + N.land cp 63)) "")
  else if cp <? 65536 then
    String (ascii_of_N (224 + N.shiftr cp 12))
      (String (ascii_of_N (128 + N.land (N.shiftr cp 6) 63))
         (String (ascii_of_N (128 + N.land cp 63)) ""))
  else
    String (ascii_of_N (240 + N.shiftr cp 18))
      (String (ascii_of_N (128 + N.land (N.shiftr cp 12) 63))
         (String (ascii_of_N (128 + N.land (N.shiftr cp 6) 63))
            (String (ascii_of_N (128 + N.land cp 63)) ""))).

(** The text of a sequence of code units: a surrogate pair is one code
    point; [lone] says what stands for an unpaired surrogate. *)
Fixpoint text (lone : N -> N) (l : list N) : string :=
  match l with
  | [] => ""
  | u :: rest =>
      if high_surrogate u then
        match rest with
        | v :: rest' =>
            if low_surrogate v then
              utf8 (65536 + (u - 55296) * 1024 + (v - 56320)) ++ text lone rest'
            else utf8 (lone u) ++ text lone rest
        | [] => utf8 (lone u)
        end
      else if low_surrogate u then utf8 (lone u) ++ text lone rest
      else utf8 u ++ text lone rest
  end.

(** The string of given code units. *)
Definition of_units (l : list N) : string := text (fun u => u) l.

(** The text of a string as [Buffer.from(s, 'utf8')] writes it: U+FFFD for
    an unpaired surrogate. *)
Definition well_formed_text (s : string) : string :=
  text (fun _ => 65533) (units s).

(** The string of the low bytes of the code units, which is what Node's
    base64 reader sees of a string. *)
Definition low_bytes (s : string) : string :=
  string_of_list_ascii (map (fun u => ascii_of_N (u mod 256)) (units s)).

Fixpoint is_ascii (s : string) : bool :=
  match s with
  | EmptyString => true
  | String c rest => (N_of_ascii c <? 128) && is_ascii rest
  end.

End Utf16.

(** ** Node's base64 text of a Buffer *)

Module Base64.

Local Open Scope N_scope.

(** [buf.toString('base64')] and [.digest('base64')]: RFC 4648 base64 with
    the standard alphabet and [=] padding. *)

Definition alphabet : string :=
  "ABCDEFGHIJKLMNOPQRSTUVWXYZabcdefghijklmnopqrstuvwxyz0123456789+/".

Definition digit (v : N) : ascii :=
  match String.get (N.to_nat v) alphabet with
  | Some c => c
  | None => "="%char
  end.

Definition sextet0 (a : N) : N := N.shiftr a 2.
Definition sextet1 (a b : N) : N := N.lor (N.shiftl (N.land a 3) 4) (N.shiftr b 4).
Definition sextet2 (b c : N) : N := N.lor (N.shiftl (N.land b 15) 2) (N.shiftr c 6).
Definition sextet3 (c : N) : N := N.land c 63.

Fixpoint encode (bs : list byte) : string :=
  match bs with
  | [] => ""
  | [a] =>
      let a := Byte.to_N a in
      String (digit (sextet0 a)) (String (digit (sextet1 a 0)) "==")
  | [a; b] =>
      let a := Byte.to_N a in
      let b := Byte.to_N b in
      String (digit (sextet0 a)) (String (digit (sextet1 a b))
        (String (digit (sextet2 b 0)) "="))
  | a :: b :: c :: rest =>
      let a := Byte.to_N a in
      let b := Byte.to_N b in
      let c := Byte.to_N c in
      String (digit (sextet0 a)) (String (digit (sextet1 a b))
        (String (digit (sextet2 b c)) (String (digit (sextet3 c)) (encode rest))))
  end.

(** [Buffer.from(s, 'base64')]: Node's reader.  It goes through the code
    units of the string and takes each by its low byte; it takes the
    standard and the URL-safe alphabet alike, skips every character that is
    of neither, stops at the first [=], needs no padding, and never throws
    on a string. *)

Definition unbase64 (c : ascii) : option N :=
  let n := N_of_ascii c in
  if (65 <=? n) && (n <=? 90) then Some (n - 65)
  else if (97 <=? n) && (n <=? 122) then Some (n - 71)
  else if (48 <=? n) && (n <=? 57) then Some (n + 4)
  else if (n =? 43) || (n =? 45) then Some 62
  else if (n =? 47) || (n =? 95) then Some 63
  else None.

Fixpoint legal_sextets (s : string) : list N :=
  match s with
  | EmptyString => []
  | String c rest =>
      match unbase64 c with
      | Some v => v :: legal_sextets rest
      | None => if Ascii.eqb c "=" then [] else legal_sextets rest
      end
  end.

Definition to_byte (n : N) : byte :=
  match Byte.of_N (N.land n 255) with
  | Some b => b
  | None => x00
  end.

Definition octet0 (s0 s1 : N) : byte := to_byte (N.lor (N.shiftl s0 2) (N.shiftr s1 4)).
Definition octet1 (s1 s2 : N) : byte := to_byte (N.lor (N.shiftl (N.land s1 15) 4) (N.shiftr s2 2)).
Definition octet2 (s2 s3 : N) : byte := to_byte (N.lor (N.shiftl (N.land s2 3) 6) s3).

Fixpoint octets (l : list N) : list byte :=
  match l with
  | s0 :: s1 :: s2 :: s3 :: rest =>
      octet0 s0 s1 :: octet1 s1 s2 :: octet2 s2 s3 :: octets rest
  | [s0; s1; s2] => [octet0 s0 s1; octet1 s1 s2]
  | [s0; s1] => [octet0 s0 s1]
  | _ => []
  end.

(** The reader on text of one-byte characters. *)
Definition read (s : string) : list byte := octets (legal_sextets s).

(** The reader on any string: it looks at the low byte of each code unit. *)
Definition decode (s : string) : list byte := read (Utf16.low_bytes s).

(** The byte of a given value, to go through all 256 of them. *)
Definition nth_byte (n : nat) : byte :=
  match Byte.of_N (N.of_nat n) with
  | Some b => b
  | None => x00
  end.

End Base64.

(** ** The URL-safe replacer ([src/crypto.js], lines 20-21 and 69-71) *)

(** [const base64UrlMatcher = /[=+/]/g]: the characters the pattern matches. *)
Definition base64UrlMatcher (c : ascii) : bool :=
  Ascii.eqb c "=" || Ascii.eqb c "+" || Ascii.eqb c "/".

(** [const encoderMap = { '=': '', '+': '-', '/': '_' }]. *)
Definition encoderMap (c : ascii) : option string :=
  if Ascii.eqb c "=" then Some ""
  else if Ascii.eqb c "+" then Some "-"
  else if Ascii.eqb c "/" then Some "_"
  else None.

(** [function base64UrlReplacer(c) { return encoderMap[c] }]; a key the map
    lacks reads as [undefined], which [replace] would print. *)
Definition base64UrlReplacer (c : ascii) : string :=
  match encoderMap c with
  | Some s => s
  | None => "undefined"
  end.

(** [s.replace(matcher, replacer)] for a global one-character pattern. *)
Fixpoint String_replace (matcher : ascii -> bool) (replacer : ascii -> string)
    (s : string) : string :=
  match s with
  | EmptyString => EmptyString
  | String c rest =>
      if matcher c then replacer c ++ String_replace matcher replacer rest
      else String c (String_replace matcher replacer rest)
  end.

(** The wire form of a signature: every signing path ends in
    [.toString('base64').replace(base64UrlMatcher, base64UrlReplacer)], and
    [verifySignature] starts with [Buffer.from(signature, 'base64')].  The
    specification calls the two [toUrlSafe] and [fromUrlSafe]. *)
Definition toUrlSafe (bytes : list byte) : string :=
  String_replace base64UrlMatcher base64UrlReplacer (Base64.encode bytes).

Definition fromUrlSafe (s : string) : list byte := Base64.decode s.

(** The specification's wording of [toUrlSafe]: drop [=], turn [+] into [-]
    and [/] into [_]. *)
Fixpoint spec_substitute (s : string) : string :=
  match s with
  | EmptyString => EmptyString
  | String c rest =>
      if Ascii.eqb c "=" then spec_substitute rest
      else if Ascii.eqb c "+" then String "-" (spec_substitute rest)
      else if Ascii.eqb c "/" then String "_" (spec_substitute rest)
      else String c (spec_substitute rest)
  end.

Definition spec_toUrlSafe (bytes : list byte) : string :=
  spec_substitute (Base64.encode bytes).


(** ** JavaScript values *)

(** The values a caller can hand over as a key: the validators look at
    [typeof], at [instanceof Buffer], at truthiness and at two properties.
    Numbers are integers or [NaN]; objects are plain property lists. *)
Inductive jsval : Type :=
| JUndefined
| JNull
| JBool (b : bool)
| JNum (z : Z)
| JNaN
| JStr (s : string)
| JBuf (bytes : list byte)
| JFun
| JObj (props : list (string * jsval)).

Definition jsobj : Type := list (string * jsval).

Definition typeof (v : jsval) : string :=
  match v with
  | JUndefined => "undefined"
  | JNull => "object"
  | JBool _ => "boolean"
  | JNum _ | JNaN => "number"
  | JStr _ => "string"
  | JBuf _ => "object"
  | JFun => "function"
  | JObj _ => "object"
  end.

Definition instanceof_Buffer (v : jsval) : bool :=
  match v with
  | JBuf _ => true
  | _ => false
  end.

(** What [if (v)] and [v && ...] test. *)
Definition truthy (v : jsval) : bool :=
  match v with
  | JUndefined | JNull | JNaN => false
  | JBool b => b
  | JNum z => negb (z =? 0)%Z
  | JStr s => negb (s =? "")
  | JBuf _ | JFun | JObj _ => true
  end.

Fixpoint obj_get (name : string) (props : jsobj) : jsval :=
  match props with
  | [] => JUndefined
  | (k, v) :: rest => if k =? name then v else obj_get name rest
  end.

(** [o.name = v], and a later [name: v] of an object literal. *)
Fixpoint obj_set (name : string) (v : jsval) (props : jsobj) : jsobj :=
  match props with
  | [] => [(name, v)]
  | (k, w) :: rest =>
      if k =? name then (k, v) :: rest else (k, w) :: obj_set name v rest
  end.

(** The own properties [{...v}] copies.  [validatePrivateKey] only ever
    returns objects. *)
Definition spread (v : jsval) : jsobj :=
  match v with
  | JObj props => props
  | _ => []
  end.

(** [s.slice(b, e)] and [s.slice(b)], with indices that are not negative:
    the code units from [b] on, up to [e]. *)
Definition slice (s : string) (b e : nat) : string :=
  Utf16.of_units (firstn (e - b) (skipn b (Utf16.units s))).
Definition slice_from (s : string) (b : nat) : string :=
  Utf16.of_units (skipn b (Utf16.units s)).

(** [Buffer.from(input, 'utf8')]: the bytes of the UTF-8 text. *)
Definition Buffer_from_utf8 (s : string) : list byte :=
  list_byte_of_string (Utf16.well_formed_text s).

Fixpoint bytes_eqb (a b : list byte) : bool :=
  match a, b with
  | [], [] => true
  | x :: a', y :: b' => Byte.eqb x y && bytes_eqb a' b'
  | _, _ => false
  end.

(** ** Errors *)

(** Modelled from the spec: [./error], the [TokenError] class with its
    [codes] table, is not among the source files.  The three codes are the
    ones [src/crypto.js] reads off [TokenError.codes]; the third argument of
    the constructor carries [originalError]. *)
Inductive error_code : Type := invalidKey | signError | verifyError.

(** What a [throw] can carry: a [TokenError], or an error raised by Node or a
    library ([TypeError], [RangeError], [Error]), known by its name. *)
Inductive exn : Type :=
| TokenError (code : error_code) (message : string) (originalError : option exn)
| NativeError (name : string).

Inductive outcome (A : Type) : Type :=
| Returns (a : A)
| Throws (e : exn).
Arguments Returns {A} a.
Arguments Throws {A} e.

(** ** Constants of Node's [crypto.constants] *)

Definition RSA_PKCS1_PADDING : Z := 1.
Definition RSA_PKCS1_PSS_PADDING : Z := 6.
Definition RSA_PSS_SALTLEN_DIGEST : Z := -1.
Definition RSA_PSS_SALTLEN_MAX_SIGN : Z := -2.
Definition RSA_PSS_SALTLEN_AUTO : Z := -2.

(** ** The primitives the file imports *)

(** One field per imported operation, each a whole call chain of the source:
    [createHmac(alg, key).update(input).digest()],
    [createSign(alg).update(input).sign(options)],
    [createVerify(alg).update(input).verify(options, signature)],
    [sign(undefined, data, key)] and [verify(undefined, data, key, signature)]
    (absent before Node 12, hence the [option]), and the two converters of
    [ecdsa-sig-formatter].  Any of them may throw.  A signer that draws
    randomness (ECDSA, RSA-PSS) is one runtime for each draw: the statements
    below hold of every runtime. *)
Record Runtime : Type := {
  rt_createHmac : string -> jsval -> string -> outcome (list byte);
  rt_createSign : string -> jsobj -> string -> outcome (list byte);
  rt_createVerify : string -> jsobj -> string -> list byte -> outcome bool;
  rt_directSign : option (list byte -> jsval -> outcome (list byte));
  rt_directVerify : option (list byte -> jsval -> list byte -> outcome bool);
  rt_derToJose : string -> string -> outcome string;
  rt_joseToDer : list byte -> string -> outcome (list byte)
}.

(** A record of every call that leaves [src/crypto.js] for [crypto] or
    [ecdsa-sig-formatter], with its arguments. *)
Inductive call : Type :=
| CreateHmac (alg : string) (key : jsval) (input : string)
| TimingSafeEqual (a b : list byte)
| DirectSign (data : list byte) (key : jsval)
| DirectVerify (data : list byte) (key : jsval) (signature : list byte)
| CreateSign (alg : string) (options : jsobj) (input : string)
| CreateVerify (alg : string) (options : jsobj) (input : string) (signature : list byte)
| DerToJose (signature : string) (alg : string)
| JoseToDer (signature : list byte) (alg : string).

(** ** Computations: exceptions and the log of calls *)

Definition M (A : Type) : Type := list call -> outcome A * list call.

Definition ret {A : Type} (a : A) : M A := fun log => (Returns a, log).

Definition throw {A : Type} (e : exn) : M A := fun log => (Throws e, log).

Definition bind {A B : Type} (m : M A) (k : A -> M B) : M B :=
  fun log =>
    match m log with
    | (Returns a, log') => k a log'
    | (Throws e, log') => (Throws e, log')
    end.

(** [try { m } catch (e) { handler e }]. *)
Definition try_catch {A : Type} (m : M A) (handler : exn -> M A) : M A :=
  fun log =>
    match m log with
    | (Returns a, log') => (Returns a, log')
    | (Throws e, log') => handler e log'
    end.

(** A call out of the file: logged, then answered by the runtime. *)
Definition invoke {A : Type} (c : call) (answer : outcome A) : M A :=
  fun log => (answer, (log ++ [c])%list).

Definition run {A : Type} (m : M A) : outcome A * list call := m [].

Declare Scope js_scope.
Delimit Scope js_scope with js.
Notation "x <- c1 ;; c2" := (bind c1 (fun x => c2))
  (at level 61, c1 at next level, right associativity) : js_scope.
Notation "c1 ;; c2" := (bind c1 (fun _ => c2))
  (at level 61, right associativity) : js_scope.
Local Open Scope js_scope.

(** [v.name]: reading a property of [null] or [undefined] is a [TypeError];
    strings, buffers and functions have no own [key] or [passphrase]. *)
Definition get_prop (v : jsval) (name : string) : M jsval :=
  match v with
  | JUndefined | JNull => throw (NativeError "TypeError")
  | JObj props => ret (obj_get name props)
  | _ => ret JUndefined
  end.

(** [timingSafeEqual(a, b)]: a [RangeError] on buffers of different length,
    else whether the bytes are equal. *)
Definition timingSafeEqual (a b : list byte) : M bool :=
  invoke (TimingSafeEqual a b)
    (if Nat.eqb (List.length a) (List.length b) then Returns (bytes_eqb a b)
     else Throws (NativeError "RangeError")).

(** ** [src/crypto.js] *)

(** Lines 30-36. *)
Definition validateSecretOrPublicKey (algorithm : string) (key : jsval)
    (message : string) : M unit :=
  if instanceof_Buffer key || (typeof key =? "string") then ret tt
  else throw (TokenError invalidKey message None).

Definition privateKeyMessage (algorithm : string) : string :=
  "The key for algorithm " ++ algorithm
  ++ " must be a string, a object or a buffer containing the private key.".

Definition keyPropertyMessage (algorithm : string) : string :=
  "The key object for algorithm " ++ algorithm
  ++ " must have the key property as string or buffer containing the private key.".

Definition passphrasePropertyMessage (algorithm : string) : string :=
  "The key object for algorithm " ++ algorithm
  ++ " must have the passphrase property as string or buffer containing the private key.".

(** Lines 38-67. *)
Definition validatePrivateKey (algorithm : string) (key : jsval) : M jsval :=
  let keyType := typeof key in
  if instanceof_Buffer key || (keyType =? "string") then
    ret (JObj [("key", key)])
  else if negb (keyType =? "object") then
    throw (TokenError invalidKey (privateKeyMessage algorithm) None)
  else
    k <- get_prop key "key" ;;
    if negb (typeof k =? "string") && negb (instanceof_Buffer k) then
      throw (TokenError invalidKey (keyPropertyMessage algorithm) None)
    else
      p <- get_prop key "passphrase" ;;
      if truthy p && negb (typeof p =? "string") && negb (instanceof_Buffer p) then
        throw (TokenError invalidKey (passphrasePropertyMessage algorithm) None)
      else ret key.

Definition secretMessage (algorithm : string) : string :=
  "The secret for algorithm " ++ algorithm ++ " must be a string or a buffer.".

Definition publicKeyMessage (algorithm : string) : string :=
  "The key for algorithm " ++ algorithm
  ++ " must be a string, a object or a buffer containing the public key.".

Definition eddsaMessage : string :=
  "EdDSA algorithms are not supported by your Node.js version.".

Section Crypto.

Variable rt : Runtime.

Definition createHmac (alg : string) (key : jsval) (input : string) : M (list byte) :=
  invoke (CreateHmac alg key input) (rt_createHmac rt alg key input).

Definition createSign (alg : string) (options : jsobj) (input : string) : M (list byte) :=
  invoke (CreateSign alg options input) (rt_createSign rt alg options input).

Definition createVerify (alg : string) (options : jsobj) (input : string)
    (signature : list byte) : M bool :=
  invoke (CreateVerify alg options input signature)
    (rt_createVerify rt alg options input signature).

Definition derToJose (signature alg : string) : M string :=
  invoke (DerToJose signature alg) (rt_derToJose rt signature alg).

Definition joseToDer (signature : list byte) (alg : string) : M (list byte) :=
  invoke (JoseToDer signature alg) (rt_joseToDer rt signature alg).

(** Lines 73-122. *)
Definition createSignature (algorithm : string) (key : jsval) (input : string)
    : M string :=
  try_catch
    (let type := slice algorithm 0 2 in
     let alg := "SHA" ++ slice_from algorithm 2 in
     if type =? "HS" then
       validateSecretOrPublicKey algorithm key (secretMessage algorithm) ;;
       mac <- createHmac alg key input ;;
       ret (String_replace base64UrlMatcher base64UrlReplacer (Base64.encode mac))
     else if type =? "Ed" then
       match rt_directSign rt with
       | Some directSign =>
           validatePrivateKey algorithm key ;;
           sig <- invoke (DirectSign (Buffer_from_utf8 input) key)
                    (directSign (Buffer_from_utf8 input) key) ;;
           ret (String_replace base64UrlMatcher base64UrlReplacer (Base64.encode sig))
       | None => throw (TokenError signError eddsaMessage None)
       end
     else
       validated <- validatePrivateKey algorithm key ;;
       let options :=
         obj_set "saltLength" (JNum RSA_PSS_SALTLEN_MAX_SIGN)
           (obj_set "padding" (JNum RSA_PKCS1_PADDING) (spread validated)) in
       let options :=
         if type =? "PS" then
           obj_set "saltLength" (JNum RSA_PSS_SALTLEN_DIGEST)
             (obj_set "padding" (JNum RSA_PKCS1_PSS_PADDING) options)
         else options in
       sig <- createSign ("RSA-" ++ alg) options input ;;
       signature <-
         (if type =? "ES" then derToJose (Base64.encode sig) algorithm
          else ret (Base64.encode sig)) ;;
       ret (String_replace base64UrlMatcher base64UrlReplacer signature))
    (fun e => throw (TokenError signError "Cannot create the signature." (Some e))).

(** Lines 124-175. *)
Definition verifySignature (algorithm : string) (key : jsval) (input : string)
    (signature : string) : M bool :=
  try_catch
    (let type := slice algorithm 0 2 in
     let alg := "SHA" ++ slice_from algorithm 2 in
     let signature := Base64.decode signature in
     if type =? "HS" then
       validateSecretOrPublicKey algorithm key (secretMessage algorithm) ;;
       try_catch
         (mac <- createHmac alg key input ;;
          timingSafeEqual mac signature)
         (fun _ => ret false)
     else if type =? "Ed" then
       match rt_directVerify rt with
       | Some directVerify =>
           invoke (DirectVerify (Buffer_from_utf8 input) key signature)
             (directVerify (Buffer_from_utf8 input) key signature)
       | None => throw (TokenError signError eddsaMessage None)
       end
     else
       let options :=
         [("key", key); ("padding", JNum RSA_PKCS1_PADDING);
          ("saltLength", JNum RSA_PSS_SALTLEN_AUTO)] in
       validateSecretOrPublicKey algorithm key (publicKeyMessage algorithm) ;;
       adjusted <-
         (if type =? "PS" then
            ret (obj_set "saltLength" (JNum RSA_PSS_SALTLEN_DIGEST)
                   (obj_set "padding" (JNum RSA_PKCS1_PSS_PADDING) options),
                 signature)
          else if type =? "ES" then
            der <- joseToDer signature algorithm ;;
            ret (options, der)
          else ret (options, signature)) ;;
       createVerify ("RSA-" ++ alg) (fst adjusted) input (snd adjusted))
    (fun e => throw (TokenError verifyError "Cannot verify the signature." (Some e))).

End Crypto.

(** ** Vocabulary of the statements *)

(** The family [createSignature] and [verifySignature] dispatch to, read off
    the first two characters as the two functions do. *)
Inductive family : Type := HMAC | EdDSA | RSA_PKCS1 | RSA_PSS | ECDSA.

Definition family_of (algorithm : string) : family :=
  let type := slice algorithm 0 2 in
  if type =? "HS" then HMAC
  else if type =? "Ed" then EdDSA
  else if type =? "PS" then RSA_PSS
  else if type =? "ES" then ECDSA
  else RSA_PKCS1.

Definition is_string_or_buffer (v : jsval) : bool :=
  match v with
  | JStr _ | JBuf _ => true
  | _ => false
  end.

(** The shapes of a private key: bare key material, or an object whose [key]
    is key material and whose [passphrase] is falsy, a string or a buffer. *)
Definition private_key_shape (key : jsval) : bool :=
  match key with
  | JStr _ | JBuf _ => true
  | JObj props =>
      is_string_or_buffer (obj_get "key" props)
      && (negb (truthy (obj_get "passphrase" props))
          || is_string_or_buffer (obj_get "passphrase" props))
  | _ => false
  end.

(** The object a private key is handed to the signer as. *)
Definition private_key_object (key : jsval) : jsobj :=
  match key with
  | JObj props => props
  | _ => [("key", key)]
  end.

(** What is wrong with a private key that is not [null], as the message that
    names it.  ([null] is an object to [typeof]: reading its [key] raises a
    [TypeError] before any check.) *)
Definition private_key_defect (algorithm : string) (key : jsval) : option string :=
  match key with
  | JStr _ | JBuf _ | JNull => None
  | JObj props =>
      if negb (is_string_or_buffer (obj_get "key" props)) then
        Some (keyPropertyMessage algorithm)
      else if truthy (obj_get "passphrase" props)
              && negb (is_string_or_buffer (obj_get "passphrase" props)) then
        Some (passphrasePropertyMessage algorithm)
      else None
  | _ => Some (privateKeyMessage algorithm)
  end.

(** The key check a signing call runs, by family, as the message of the key
    it turns down; EdDSA checks the key only where the runtime can sign. *)
Definition sign_key_defect (rt : Runtime) (algorithm : string) (key : jsval)
    : option string :=
  match family_of algorithm with
  | HMAC => if is_string_or_buffer key then None else Some (secretMessage algorithm)
  | EdDSA =>
      match rt_directSign rt with
      | Some _ => private_key_defect algorithm key
      | None => None
      end
  | _ => private_key_defect algorithm key
  end.

(** The same for a verification call; the EdDSA branch checks no key. *)
Definition verify_key_defect (algorithm : string) (key : jsval) : option string :=
  match family_of algorithm with
  | HMAC => if is_string_or_buffer key then None else Some (secretMessage algorithm)
  | EdDSA => None
  | _ => if is_string_or_buffer key then None else Some (publicKeyMessage algorithm)
  end.

(** Two objects with the same properties, in whatever order they hold them. *)
Definition same_properties (a b : jsobj) : Prop :=
  forall name, obj_get name a = obj_get name b.

(** The options for signing with a private key under a padding and a salt
    length, and those for verifying with a public key. *)
Definition sign_options (sk : jsval) (padding saltLength : Z) : jsobj :=
  obj_set "saltLength" (JNum saltLength)
    (obj_set "padding" (JNum padding) (private_key_object sk)).

Definition verify_options (pk : jsval) (padding saltLength : Z) : jsobj :=
  [("key", pk); ("padding", JNum padding); ("saltLength", JNum saltLength)].

(** The salt lengths that are given by name rather than in bytes: the digest
    length, and the longest that fits when signing, which as a number is
    also automatic detection when verifying. *)
Definition named_salt (saltLength : Z) : Prop :=
  saltLength = RSA_PSS_SALTLEN_DIGEST \/ saltLength = RSA_PSS_SALTLEN_AUTO.

(** What the native RSA-PSS verifier does with salt lengths: the salt length
    matters under PSS padding only, where a verifier set to automatic
    detection takes any, and one set to a length takes that length. *)
Definition salt_accepted (padding sign_salt verify_salt : Z) : Prop :=
  padding <> RSA_PKCS1_PSS_PADDING
  \/ verify_salt = RSA_PSS_SALTLEN_AUTO
  \/ verify_salt = sign_salt.

(** A private and a public key that belong together under a signature scheme
    and a padding: given the key, the padding and a named salt length, the
    native signer signs; and the native verifier, given the public key, the
    same padding and a named salt length that accepts the signer's, answers
    [true] on the result. *)
Definition key_pair (rt : Runtime) (scheme : string) (padding : Z)
    (sk pk : jsval) : Prop :=
  forall (sign_salt verify_salt : Z) (so vo : jsobj) (input : string),
    named_salt sign_salt ->
    named_salt verify_salt ->
    salt_accepted padding sign_salt verify_salt ->
    same_properties so (sign_options sk padding sign_salt) ->
    same_properties vo (verify_options pk padding verify_salt) ->
    exists sig,
      rt_createSign rt scheme so input = Returns sig
      /\ rt_createVerify rt scheme vo input sig = Returns true.

(** The same for ECDSA, whose DER signature travels in fixed-width form:
    [derToJose] answers with the URL-safe base64 text of the fixed-width
    bytes, and [joseToDer] turns those back into a signature the verifier
    accepts. *)
Definition ecdsa_key_pair (rt : Runtime) (algorithm scheme : string)
    (padding : Z) (sk pk : jsval) : Prop :=
  forall (sign_salt verify_salt : Z) (so vo : jsobj) (input : string),
    named_salt sign_salt ->
    named_salt verify_salt ->
    salt_accepted padding sign_salt verify_salt ->
    same_properties so (sign_options sk padding sign_salt) ->
    same_properties vo (verify_options pk padding verify_salt) ->
    exists der jose der',
      rt_createSign rt scheme so input = Returns der
      /\ rt_derToJose rt (Base64.encode der) algorithm = Returns (toUrlSafe jose)
      /\ rt_joseToDer rt jose algorithm = Returns der'
      /\ rt_createVerify rt scheme vo input der' = Returns true.

(** Keys that are valid for an algorithm and a message: of the shape the
    family takes, and taken by the native primitives of the runtime. *)
Definition valid_keys (rt : Runtime) (algorithm : string) (sk pk : jsval)
    (input : string) : Prop :=
  match family_of algorithm with
  | HMAC =>
      pk = sk /\ is_string_or_buffer sk = true
      /\ exists mac,
           rt_createHmac rt ("SHA" ++ slice_from algorithm 2) sk input = Returns mac
  | EdDSA =>
      private_key_shape sk = true
      /\ exists directSign directVerify sig,
           rt_directSign rt = Some directSign
           /\ rt_directVerify rt = Some directVerify
           /\ directSign (Buffer_from_utf8 input) sk = Returns sig
           /\ directVerify (Buffer_from_utf8 input) pk sig = Returns true
  | ECDSA =>
      private_key_shape sk = true /\ is_string_or_buffer pk = true
      /\ ecdsa_key_pair rt algorithm ("RSA-SHA" ++ slice_from algorithm 2)
           RSA_PKCS1_PADDING sk pk
  | RSA_PKCS1 =>
      private_key_shape sk = true /\ is_string_or_buffer pk = true
      /\ key_pair rt ("RSA-SHA" ++ slice_from algorithm 2) RSA_PKCS1_PADDING sk pk
  | RSA_PSS =>
      private_key_shape sk = true /\ is_string_or_buffer pk = true
      /\ key_pair rt ("RSA-SHA" ++ slice_from algorithm 2) RSA_PKCS1_PSS_PADDING
           sk pk
  end.

(** The two errors the outer [catch] blocks raise, around their cause. *)
Definition signFailure (cause : exn) : exn :=
  TokenError signError "Cannot create the signature." (Some cause).

Definition verifyFailure (cause : exn) : exn :=
  TokenError verifyError "Cannot verify the signature." (Some cause).

(** What a [catch] block that rethrows makes of an outcome. *)
Definition rethrow {A : Type} (wrap : exn -> exn) (o : outcome A) : outcome A :=
  match o with
  | Returns a => Returns a
  | Throws e => Throws (wrap e)
  end.

Definition outcome_map {A B : Type} (f : A -> B) (o : outcome A) : outcome B :=
  match o with
  | Returns a => Returns (f a)
  | Throws e => Throws e
  end.

(** The options [createSignature] hands to the native signer: the key
    object, then [padding] and [saltLength], which the PS family overwrites. *)
Definition pkcs1_sign_options (key : jsval) : jsobj :=
  obj_set "saltLength" (JNum RSA_PSS_SALTLEN_MAX_SIGN)
    (obj_set "padding" (JNum RSA_PKCS1_PADDING) (private_key_object key)).

Definition pss_sign_options (key : jsval) : jsobj :=
  obj_set "saltLength" (JNum RSA_PSS_SALTLEN_DIGEST)
    (obj_set "padding" (JNum RSA_PKCS1_PSS_PADDING) (pkcs1_sign_options key)).

(** What the runtime answers to a logged call of a native verifier. *)
Definition native_verdict (rt : Runtime) (c : call) : option (outcome bool) :=
  match c with
  | CreateVerify alg options input signature =>
      Some (rt_createVerify rt alg options input signature)
  | DirectVerify data key signature =>
      match rt_directVerify rt with
      | Some directVerify => Some (directVerify data key signature)
      | None => None
      end
  | _ => None
  end.

(** The calls a signing run may make, and those a verifying run may make. *)
Definition signing_call (c : call) : bool :=
  match c with
  | CreateHmac _ _ _ | DirectSign _ _ | CreateSign _ _ _ | DerToJose _ _ => true
  | _ => false
  end.

Definition verifying_call (c : call) : bool :=
  match c with
  | CreateHmac _ _ _ | TimingSafeEqual _ _ | DirectVerify _ _ _
  | CreateVerify _ _ _ _ | JoseToDer _ _ => true
  | _ => false
  end.

(** Whether a text holds none of the characters the matcher looks for. *)
Fixpoint url_safe (s : string) : bool :=
  match s with
  | EmptyString => true
  | String c rest => negb (base64UrlMatcher c) && url_safe rest
  end.

(** One bit of one character of a string flipped. *)
Definition flip_ascii (bit : nat) (c : ascii) : ascii :=
  ascii_of_N (N.lxor (N_of_ascii c) (N.shiftl 1 (N.of_nat bit))).

Fixpoint flip_bit (index bit : nat) (s : string) : string :=
  match s, index with
  | EmptyString, _ => EmptyString
  | String c rest, O => String (flip_ascii bit c) rest
  | String c rest, S i => String c (flip_bit i bit rest)
  end.

(** ** A small runtime to run the functions on *)

(** Stand-ins for the native primitives, with their interface and failure
    modes but no cryptography: a digest is the key and the message cut to the
    digest length, a signature is a tag for the salt length followed by such
    a digest, and a key pair is twice the same text. *)
Module Demo.

Definition key_bytes (k : jsval) : option (list byte) :=
  match k with
  | JStr s => Some (list_byte_of_string s)
  | JBuf b => Some b
  | _ => None
  end.

Definition digest_length (alg : string) : option nat :=
  if alg =? "SHA256" then Some 32%nat
  else if alg =? "SHA384" then Some 48%nat
  else if alg =? "SHA512" then Some 64%nat
  else None.

Definition fit (n : nat) (bs : list byte) : list byte :=
  firstn n (bs ++ repeat x00 n)%list.

Definition digest (alg : string) (key : jsval) (input : string)
    : outcome (list byte) :=
  match digest_length alg, key_bytes key with
  | None, _ => Throws (NativeError "Error")
  | Some _, None => Throws (NativeError "TypeError")
  | Some n, Some k => Returns (fit n (k ++ list_byte_of_string input)%list)
  end.

Definition is_pss (padding : jsval) : bool :=
  match padding with
  | JNum z => (z =? RSA_PKCS1_PSS_PADDING)%Z
  | _ => false
  end.

(** The salt length a PSS signer uses, as the tag of the signature: the
    digest length, the longest that fits the key (222 here), or the length
    asked for. *)
Definition salt_tag (n : nat) (padding saltLength : jsval) : Z :=
  if is_pss padding then
    match saltLength with
    | JNum z =>
        if (z =? RSA_PSS_SALTLEN_DIGEST)%Z then Z.of_nat n
        else if (z =? RSA_PSS_SALTLEN_MAX_SIGN)%Z then 222%Z
        else z
    | _ => 222%Z
    end
  else 0%Z.

(** Whether a PSS verifier is to find the salt length by itself. *)
Definition auto_salt (padding saltLength : jsval) : bool :=
  is_pss padding
  && match saltLength with
     | JNum z => (z =? RSA_PSS_SALTLEN_AUTO)%Z
     | _ => false
     end.

Definition tag_byte (z : Z) : byte := Base64.to_byte (Z.to_N z).

Definition createSign (scheme : string) (options : jsobj) (input : string)
    : outcome (list byte) :=
  let alg := slice_from scheme 4 in
  match digest alg (obj_get "key" options) input with
  | Returns d =>
      Returns (tag_byte (salt_tag (List.length d) (obj_get "padding" options)
                           (obj_get "saltLength" options)) :: d)
  | Throws e => Throws e
  end.

Definition createVerify (scheme : string) (options : jsobj) (input : string)
    (signature : list byte) : outcome bool :=
  let alg := slice_from scheme 4 in
  match digest alg (obj_get "key" options) input with
  | Returns d =>
      match signature with
      | [] => Returns false
      | tag :: body =>
          Returns
            ((auto_salt (obj_get "padding" options) (obj_get "saltLength" options)
              || Byte.eqb tag
                   (tag_byte (salt_tag (List.length d) (obj_get "padding" options)
                                (obj_get "saltLength" options))))
             && bytes_eqb body d)
      end
  | Throws e => Throws e
  end.

Definition directSign (data : list byte) (key : jsval) : outcome (list byte) :=
  match key_bytes (obj_get "key" (private_key_object key)) with
  | Some k => Returns (fit 64 (k ++ data)%list)
  | None => Throws (NativeError "TypeError")
  end.

Definition directVerify (data : list byte) (key : jsval) (signature : list byte)
    : outcome bool :=
  match key_bytes key with
  | Some k => Returns (bytes_eqb signature (fit 64 (k ++ data)%list))
  | None => Throws (NativeError "TypeError")
  end.

Definition derToJose (signature alg : string) : outcome string :=
  Returns (toUrlSafe (rev (Base64.decode signature))).

Definition joseToDer (signature : list byte) (alg : string) : outcome (list byte) :=
  Returns (rev signature).

(** A PSS signature over [msg] with a salt of 20 bytes, as a signer other
    than [createSignature] may make it. *)
Definition salt20_options : jsobj :=
  [("key", JStr "pem"); ("padding", JNum RSA_PKCS1_PSS_PADDING); ("saltLength", JNum 20)].

Definition salt20_signature : list byte :=
  match createSign "RSA-SHA256" salt20_options "msg" with
  | Returns sig => sig
  | Throws _ => []
  end.

(** A current Node. *)
Definition node : Runtime :=
  {| rt_createHmac := digest;
     rt_createSign := createSign;
     rt_createVerify := createVerify;
     rt_directSign := Some directSign;
     rt_directVerify := Some directVerify;
     rt_derToJose := derToJose;
     rt_joseToDer := joseToDer |}.

(** Node 10, which has neither [crypto.sign] nor [crypto.verify]. *)
Definition node10 : Runtime :=
  {| rt_createHmac := digest;
     rt_createSign := createSign;
     rt_createVerify := createVerify;
     rt_directSign := None;
     rt_directVerify := None;
     rt_derToJose := derToJose;
     rt_joseToDer := joseToDer |}.

(** A converter that, like [ecdsa-sig-formatter], takes a fixed-width
    signature only when it is twice as long as a coordinate of the curve. *)
Definition coordinate_size (alg : string) : option nat :=
  if alg =? "ES256" then Some 32%nat
  else if alg =? "ES384" then Some 48%nat
  else if alg =? "ES512" then Some 66%nat
  else None.

Definition joseToDer_checked (signature : list byte) (alg : string)
    : outcome (list byte) :=
  match coordinate_size alg with
  | Some n =>
      if Nat.eqb (List.length signature) (2 * n) then Returns (rev signature)
      else Throws (NativeError "TypeError")
  | None => Throws (NativeError "Error")
  end.

Definition node_checked : Runtime :=
  {| rt_createHmac := digest;
     rt_createSign := createSign;
     rt_createVerify := createVerify;
     rt_directSign := Some directSign;
     rt_directVerify := Some directVerify;
     rt_derToJose := derToJose;
     rt_joseToDer := joseToDer_checked |}.

End Demo.

(** * Proofs *)

(** ** The functions on a few inputs *)

Example encode_three_bytes : Base64.encode [x4d; x61; x6e] = "TWFu".
Proof. reflexivity. Qed.

Example encode_two_bytes : Base64.encode [x4d; x61] = "TWE=".
Proof. reflexivity. Qed.

Example encode_one_byte : Base64.encode [x4d] = "TQ==".
Proof. reflexivity. Qed.

Example toUrlSafe_replaces : toUrlSafe [xfb; xff] = "-_8".
Proof. reflexivity. Qed.

Example decode_skips_and_stops : Base64.decode "T!W=Fu" = [x4d].
Proof. reflexivity. Qed.

Example families_of_the_supported_identifiers :
  map family_of
    ["HS256"; "HS384"; "HS512"; "RS256"; "RS384"; "RS512"; "PS256"; "PS384";
     "PS512"; "ES256"; "ES384"; "ES512"; "EdDSA"]
  = [HMAC; HMAC; HMAC; RSA_PKCS1; RSA_PKCS1; RSA_PKCS1; RSA_PSS; RSA_PSS;
     RSA_PSS; ECDSA; ECDSA; ECDSA; EdDSA].
Proof. reflexivity. Qed.

Example slice_cuts_code_units :
  slice "éS256" 0 2 = "éS" /\ slice_from "éS256" 2 = "256"
  /\ slice_from "😀256" 2 = "256" /\ slice "R" 0 2 = "R" /\ slice_from "R" 2 = "".
Proof. repeat split. Qed.

Example decode_reads_low_bytes :
  Base64.decode "şk-c" = Base64.decode "_k-c"
  /\ Base64.decode "AAAAéAAAA" = Base64.decode "AAAAAAAA"
  /\ Base64.decode "AAAA😀AAAA" = Base64.decode "AAAA=AAAA".
Proof. repeat split. Qed.

Example utf8_bytes_of_text :
  Buffer_from_utf8 "é😀" = [xc3; xa9; xf0; x9f; x98; x80]
  /\ Buffer_from_utf8 (slice "H😀" 0 2) = [x48; xef; xbf; xbd].
Proof. repeat split. Qed.

Example typeof_null_is_object :
  run (validatePrivateKey "RS256" JNull) = (Throws (NativeError "TypeError"), []).
Proof. reflexivity. Qed.

Example sign_PS256 :
  run (createSignature Demo.node "PS256" (JStr "k") "m")
  = (Returns "IGttAAAAAAAAAAAAAAAAAAAAAAAAAAAAAAAAAAAAAAAA",
     [CreateSign "RSA-SHA256"
        [("key", JStr "k"); ("padding", JNum 6); ("saltLength", JNum (-1))] "m"]).
Proof. reflexivity. Qed.

Example sign_ES256 :
  snd (run (createSignature Demo.node "ES256" (JStr "k") "m"))
  = [CreateSign "RSA-SHA256"
       [("key", JStr "k"); ("padding", JNum 1); ("saltLength", JNum (-2))] "m";
     DerToJose "AGttAAAAAAAAAAAAAAAAAAAAAAAAAAAAAAAAAAAAAAAA" "ES256"].
Proof. reflexivity. Qed.

Example sign_with_key_object :
  snd (run (createSignature Demo.node "RS256"
              (JObj [("key", JStr "k"); ("passphrase", JStr "pw"); ("padding", JNum 6)])
              "m"))
  = [CreateSign "RSA-SHA256"
       [("key", JStr "k"); ("passphrase", JStr "pw"); ("padding", JNum 1);
        ("saltLength", JNum (-2))] "m"].
Proof. reflexivity. Qed.

(** ** The transport codec *)

Module Base64Facts.
Import Base64.
Local Open Scope N_scope.

Lemma nth_byte_to_N (b : byte) : nth_byte (N.to_nat (Byte.to_N b)) = b.
Proof.
  unfold nth_byte. now rewrite N2Nat.id, Byte.of_to_N.
Qed.

Lemma byte_index_lt (b : byte) : (N.to_nat (Byte.to_N b) < 256)%nat.
Proof.
  pose proof (Byte.to_N_bounded b). lia.
Qed.

(** A property of bytes that holds on all 256 of them holds of every byte. *)
Lemma byte_forall (P : byte -> bool) :
  forallb (fun n => P (nth_byte n)) (seq 0 256) = true ->
  forall b, P b = true.
Proof.
  intros H b. rewrite forallb_forall in H.
  rewrite <- (nth_byte_to_N b). apply H, in_seq.
  pose proof (byte_index_lt b). lia.
Qed.

Lemma byte_forall2 (P : byte -> byte -> bool) :
  forallb (fun n => forallb (fun m => P (nth_byte n) (nth_byte m)) (seq 0 256))
    (seq 0 256) = true ->
  forall a b, P a b = true.
Proof.
  intros H a. apply byte_forall.
  rewrite forallb_forall in H.
  specialize (H (N.to_nat (Byte.to_N a))).
  rewrite nth_byte_to_N in H. apply H, in_seq.
  pose proof (byte_index_lt a). lia.
Qed.

Lemma sextet0_lt (a : byte) : sextet0 (Byte.to_N a) < 64.
Proof.
  apply N.ltb_lt. revert a. apply byte_forall. vm_compute. reflexivity.
Qed.

Lemma sextet1_lt (a b : byte) : sextet1 (Byte.to_N a) (Byte.to_N b) < 64.
Proof.
  apply N.ltb_lt. revert a b. apply byte_forall2. vm_compute. reflexivity.
Qed.

Lemma sextet2_lt (b c : byte) : sextet2 (Byte.to_N b) (Byte.to_N c) < 64.
Proof.
  apply N.ltb_lt. revert b c. apply byte_forall2. vm_compute. reflexivity.
Qed.

Lemma sextet3_lt (c : byte) : sextet3 (Byte.to_N c) < 64.
Proof.
  apply N.ltb_lt. revert c. apply byte_forall. vm_compute. reflexivity.
Qed.

Lemma octet0_sextets (a b : byte) :
  octet0 (sextet0 (Byte.to_N a)) (sextet1 (Byte.to_N a) (Byte.to_N b)) = a.
Proof.
  apply Byte.byte_dec_bl. revert a b. apply byte_forall2.
  vm_compute. reflexivity.
Qed.

Lemma sextet1_low (a b : byte) :
  N.land (sextet1 (Byte.to_N a) (Byte.to_N b)) 15 = N.shiftr (Byte.to_N b) 4.
Proof.
  apply N.eqb_eq. revert a b. apply byte_forall2. vm_compute. reflexivity.
Qed.

Lemma sextet2_high (b c : byte) :
  N.shiftr (sextet2 (Byte.to_N b) (Byte.to_N c)) 2 = N.land (Byte.to_N b) 15.
Proof.
  apply N.eqb_eq. revert b c. apply byte_forall2. vm_compute. reflexivity.
Qed.

Lemma nibbles_join (b : byte) :
  to_byte (N.lor (N.shiftl (N.shiftr (Byte.to_N b) 4) 4) (N.land (Byte.to_N b) 15)) = b.
Proof.
  apply Byte.byte_dec_bl. revert b. apply byte_forall. vm_compute. reflexivity.
Qed.

Lemma octet1_sextets (a b c : byte) :
  octet1 (sextet1 (Byte.to_N a) (Byte.to_N b)) (sextet2 (Byte.to_N b) (Byte.to_N c)) = b.
Proof.
  unfold octet1. rewrite sextet1_low, sextet2_high. apply nibbles_join.
Qed.

Lemma octet2_sextets (b c : byte) :
  octet2 (sextet2 (Byte.to_N b) (Byte.to_N c)) (sextet3 (Byte.to_N c)) = c.
Proof.
  apply Byte.byte_dec_bl. revert b c. apply byte_forall2.
  vm_compute. reflexivity.
Qed.

(** After the replacer ran, a digit of the alphabet is one character that
    Node's reader takes for the very sextet it came from. *)
Lemma legal_digit (v : N) (rest : string) :
  v < 64 ->
  legal_sextets (String_replace base64UrlMatcher base64UrlReplacer (String (digit v) rest))
  = v :: legal_sextets (String_replace base64UrlMatcher base64UrlReplacer rest).
Proof.
  intros Hv.
  assert (Hin : In (N.to_nat v) (seq 0 64)) by (apply in_seq; lia).
  rewrite <- (N2Nat.id v). revert Hin. generalize (N.to_nat v) as n.
  intros n Hin. cbv [seq] in Hin.
  repeat (destruct Hin as [<- | Hin]; [reflexivity | ]).
  destruct Hin.
Qed.

Lemma list_ind3 (A : Type) (P : list A -> Prop) :
  P [] ->
  (forall a, P [a]) ->
  (forall a b, P [a; b]) ->
  (forall a b c rest, P rest -> P (a :: b :: c :: rest)) ->
  forall l, P l.
Proof.
  intros H0 H1 H2 H3.
  fix IH 1. intros [| a [| b [| c rest]]].
  - exact H0.
  - apply H1.
  - apply H2.
  - apply H3, IH.
Qed.

Lemma read_toUrlSafe (bs : list byte) : read (toUrlSafe bs) = bs.
Proof.
  unfold read, toUrlSafe.
  induction bs as [| a | a b | a b c rest IH] using list_ind3.
  - reflexivity.
  - cbn [encode].
    rewrite legal_digit by apply sextet0_lt.
    change 0 with (Byte.to_N x00).
    rewrite legal_digit by apply sextet1_lt.
    change (String_replace base64UrlMatcher base64UrlReplacer "==") with "".
    cbn [legal_sextets octets]. now rewrite octet0_sextets.
  - cbn [encode].
    rewrite legal_digit by apply sextet0_lt.
    rewrite legal_digit by apply sextet1_lt.
    change 0 with (Byte.to_N x00).
    rewrite legal_digit by apply sextet2_lt.
    change (String_replace base64UrlMatcher base64UrlReplacer "=") with "".
    cbn [legal_sextets octets]. now rewrite octet0_sextets, octet1_sextets.
  - cbn [encode].
    rewrite legal_digit by apply sextet0_lt.
    rewrite legal_digit by apply sextet1_lt.
    rewrite legal_digit by apply sextet2_lt.
    rewrite legal_digit by apply sextet3_lt.
    cbn [octets]. rewrite IH.
    now rewrite octet0_sextets, octet1_sextets, octet2_sextets.
Qed.

(** The reader takes the padded standard text as well. *)
Lemma legal_digit_plain (v : N) (rest : string) :
  v < 64 -> legal_sextets (String (digit v) rest) = v :: legal_sextets rest.
Proof.
  intros Hv.
  assert (Hin : In (N.to_nat v) (seq 0 64)) by (apply in_seq; lia).
  rewrite <- (N2Nat.id v). revert Hin. generalize (N.to_nat v) as n.
  intros n Hin. cbv [seq] in Hin.
  repeat (destruct Hin as [<- | Hin]; [reflexivity | ]).
  destruct Hin.
Qed.

Lemma read_encode (bs : list byte) : read (encode bs) = bs.
Proof.
  unfold read.
  induction bs as [| a | a b | a b c rest IH] using list_ind3.
  - reflexivity.
  - cbn [encode].
    rewrite legal_digit_plain by apply sextet0_lt.
    change 0 with (Byte.to_N x00).
    rewrite legal_digit_plain by apply sextet1_lt.
    change (legal_sextets "==") with (@nil N).
    cbn [octets]. now rewrite octet0_sextets.
  - cbn [encode].
    rewrite legal_digit_plain by apply sextet0_lt.
    rewrite legal_digit_plain by apply sextet1_lt.
    change 0 with (Byte.to_N x00).
    rewrite legal_digit_plain by apply sextet2_lt.
    change (legal_sextets "=") with (@nil N).
    cbn [octets]. now rewrite octet0_sextets, octet1_sextets.
  - cbn [encode].
    rewrite legal_digit_plain by apply sextet0_lt.
    rewrite legal_digit_plain by apply sextet1_lt.
    rewrite legal_digit_plain by apply sextet2_lt.
    rewrite legal_digit_plain by apply sextet3_lt.
    cbn [octets]. rewrite IH.
    now rewrite octet0_sextets, octet1_sextets, octet2_sextets.
Qed.

(** Text of ASCII characters is its own sequence of low bytes. *)
Lemma low_bytes_ascii (s : string) :
  Utf16.is_ascii s = true -> Utf16.low_bytes s = s.
Proof.
  unfold Utf16.low_bytes.
  induction s as [| c rest IH]; [reflexivity |].
  cbn [Utf16.is_ascii]. intros [Hc Hrest]%andb_true_iff.
  cbn [Utf16.units]. rewrite Hc. cbn [map string_of_list_ascii].
  rewrite (IH Hrest). f_equal.
  apply N.ltb_lt in Hc.
  rewrite N.mod_small by lia. apply ascii_N_embedding.
Qed.

Lemma is_ascii_digit (v : N) (rest : string) :
  v < 64 -> Utf16.is_ascii (String (digit v) rest) = Utf16.is_ascii rest.
Proof.
  intros Hv.
  assert (Hin : In (N.to_nat v) (seq 0 64)) by (apply in_seq; lia).
  rewrite <- (N2Nat.id v). revert Hin. generalize (N.to_nat v) as n.
  intros n Hin. cbv [seq] in Hin.
  repeat (destruct Hin as [<- | Hin]; [reflexivity | ]).
  destruct Hin.
Qed.

Lemma is_ascii_replaced_digit (v : N) (rest : string) :
  v < 64 ->
  Utf16.is_ascii
    (String_replace base64UrlMatcher base64UrlReplacer (String (digit v) rest))
  = Utf16.is_ascii (String_replace base64UrlMatcher base64UrlReplacer rest).
Proof.
  intros Hv.
  assert (Hin : In (N.to_nat v) (seq 0 64)) by (apply in_seq; lia).
  rewrite <- (N2Nat.id v). revert Hin. generalize (N.to_nat v) as n.
  intros n Hin. cbv [seq] in Hin.
  repeat (destruct Hin as [<- | Hin]; [reflexivity | ]).
  destruct Hin.
Qed.

Lemma is_ascii_encode (bs : list byte) : Utf16.is_ascii (encode bs) = true.
Proof.
  induction bs as [| a | a b | a b c rest IH] using list_ind3;
    cbn [encode]; [reflexivity | | |].
  - rewrite is_ascii_digit by apply sextet0_lt.
    change 0 with (Byte.to_N x00).
    now rewrite is_ascii_digit by apply sextet1_lt.
  - rewrite is_ascii_digit by apply sextet0_lt.
    rewrite is_ascii_digit by apply sextet1_lt.
    change 0 with (Byte.to_N x00).
    now rewrite is_ascii_digit by apply sextet2_lt.
  - rewrite is_ascii_digit by apply sextet0_lt.
    rewrite is_ascii_digit by apply sextet1_lt.
    rewrite is_ascii_digit by apply sextet2_lt.
    now rewrite is_ascii_digit by apply sextet3_lt.
Qed.

Lemma is_ascii_toUrlSafe (bs : list byte) : Utf16.is_ascii (toUrlSafe bs) = true.
Proof.
  unfold toUrlSafe.
  induction bs as [| a | a b | a b c rest IH] using list_ind3;
    cbn [encode]; [reflexivity | | |].
  - rewrite is_ascii_replaced_digit by apply sextet0_lt.
    change 0 with (Byte.to_N x00).
    now rewrite is_ascii_replaced_digit by apply sextet1_lt.
  - rewrite is_ascii_replaced_digit by apply sextet0_lt.
    rewrite is_ascii_replaced_digit by apply sextet1_lt.
    change 0 with (Byte.to_N x00).
    now rewrite is_ascii_replaced_digit by apply sextet2_lt.
  - rewrite is_ascii_replaced_digit by apply sextet0_lt.
    rewrite is_ascii_replaced_digit by apply sextet1_lt.
    rewrite is_ascii_replaced_digit by apply sextet2_lt.
    now rewrite is_ascii_replaced_digit by apply sextet3_lt.
Qed.

Lemma decode_toUrlSafe (bs : list byte) : decode (toUrlSafe bs) = bs.
Proof.
  unfold decode.
  rewrite low_bytes_ascii by apply is_ascii_toUrlSafe.
  apply read_toUrlSafe.
Qed.

Lemma decode_encode (bs : list byte) : decode (encode bs) = bs.
Proof.
  unfold decode.
  rewrite low_bytes_ascii by apply is_ascii_encode.
  apply read_encode.
Qed.

End Base64Facts.

Lemma String_replace_spec (s : string) :
  String_replace base64UrlMatcher base64UrlReplacer s = spec_substitute s.
Proof.
  induction s as [| c rest IH]; [reflexivity |].
  cbn [String_replace spec_substitute].
  unfold base64UrlMatcher, base64UrlReplacer, encoderMap.
  rewrite <- IH.
  destruct (Ascii.eqb c "="); [reflexivity |].
  destruct (Ascii.eqb c "+"); [reflexivity |].
  destruct (Ascii.eqb c "/"); reflexivity.
Qed.

(** ** Objects *)

Lemma obj_get_set_same (name : string) (v : jsval) (props : jsobj) :
  obj_get name (obj_set name v props) = v.
Proof.
  induction props as [| [k w] rest IH]; cbn.
  - now rewrite String.eqb_refl.
  - destruct (String.eqb_spec k name) as [-> | Hk]; cbn.
    + now rewrite String.eqb_refl.
    + apply String.eqb_neq in Hk. now rewrite Hk.
Qed.

Lemma obj_get_set_other (name other : string) (v : jsval) (props : jsobj) :
  name <> other ->
  obj_get name (obj_set other v props) = obj_get name props.
Proof.
  intros Hne.
  induction props as [| [k w] rest IH]; cbn.
  - destruct (String.eqb_spec other name) as [-> | _]; [contradiction | reflexivity].
  - destruct (String.eqb_spec k other) as [-> | Hk]; cbn.
    + destruct (String.eqb_spec other name) as [-> | _]; [contradiction | reflexivity].
    + destruct (k =? name); [reflexivity | exact IH].
Qed.

(** ** The key validators *)

Lemma is_string_or_buffer_test (v : jsval) :
  instanceof_Buffer v || (typeof v =? "string") = is_string_or_buffer v.
Proof. destruct v; reflexivity. Qed.

Lemma is_string_or_buffer_neg_test (v : jsval) :
  negb (typeof v =? "string") && negb (instanceof_Buffer v)
  = negb (is_string_or_buffer v).
Proof. destruct v; reflexivity. Qed.

Lemma validateSecretOrPublicKey_accepts (algorithm : string) (key : jsval)
    (message : string) (log : list call) :
  is_string_or_buffer key = true ->
  validateSecretOrPublicKey algorithm key message log = (Returns tt, log).
Proof.
  intros H. unfold validateSecretOrPublicKey.
  now rewrite is_string_or_buffer_test, H.
Qed.

Lemma validateSecretOrPublicKey_rejects (algorithm : string) (key : jsval)
    (message : string) (log : list call) :
  is_string_or_buffer key = false ->
  validateSecretOrPublicKey algorithm key message log
  = (Throws (TokenError invalidKey message None), log).
Proof.
  intros H. unfold validateSecretOrPublicKey.
  now rewrite is_string_or_buffer_test, H.
Qed.

(** The checks of [validatePrivateKey] on a plain object. *)
Lemma validatePrivateKey_object (algorithm : string) (props : jsobj)
    (log : list call) :
  validatePrivateKey algorithm (JObj props) log
  = if negb (is_string_or_buffer (obj_get "key" props)) then
      (Throws (TokenError invalidKey (keyPropertyMessage algorithm) None), log)
    else if truthy (obj_get "passphrase" props)
            && negb (is_string_or_buffer (obj_get "passphrase" props)) then
      (Throws (TokenError invalidKey (passphrasePropertyMessage algorithm) None), log)
    else (Returns (JObj props), log).
Proof.
  unfold validatePrivateKey, bind, get_prop, ret. cbn [typeof instanceof_Buffer orb negb].
  cbn [String.eqb Ascii.eqb Bool.eqb]. cbv iota.
  rewrite is_string_or_buffer_neg_test.
  destruct (is_string_or_buffer (obj_get "key" props)); cbn [negb]; [| reflexivity].
  rewrite <- andb_assoc, is_string_or_buffer_neg_test.
  destruct (truthy (obj_get "passphrase" props)
            && negb (is_string_or_buffer (obj_get "passphrase" props))); reflexivity.
Qed.

Lemma validatePrivateKey_accepts (algorithm : string) (key : jsval)
    (log : list call) :
  private_key_shape key = true ->
  validatePrivateKey algorithm key log = (Returns (JObj (private_key_object key)), log).
Proof.
  destruct key; try discriminate; intros H; try reflexivity.
  rewrite validatePrivateKey_object. cbn in H.
  apply andb_true_iff in H as [Hk Hp]. rewrite Hk. cbn [negb].
  destruct (truthy (obj_get "passphrase" props)); cbn in *; [| reflexivity].
  now rewrite Hp.
Qed.

Lemma validatePrivateKey_rejects (algorithm : string) (key : jsval)
    (message : string) (log : list call) :
  private_key_defect algorithm key = Some message ->
  validatePrivateKey algorithm key log
  = (Throws (TokenError invalidKey message None), log).
Proof.
  destruct key; cbn [private_key_defect]; try discriminate;
    try (intros [= <-]; reflexivity).
  intros H. rewrite validatePrivateKey_object.
  destruct (negb (is_string_or_buffer (obj_get "key" props))).
  - now injection H as <-.
  - destruct (truthy (obj_get "passphrase" props)
              && negb (is_string_or_buffer (obj_get "passphrase" props)));
      [now injection H as <- | discriminate].
Qed.

(** ** The dispatch on the first two characters *)

Lemma family_of_spec (algorithm : string) :
  let type := slice algorithm 0 2 in
  match family_of algorithm with
  | HMAC => (type =? "HS") = true
  | EdDSA => (type =? "HS") = false /\ (type =? "Ed") = true
  | RSA_PSS =>
      (type =? "HS") = false /\ (type =? "Ed") = false /\ (type =? "PS") = true
      /\ (type =? "ES") = false
  | ECDSA =>
      (type =? "HS") = false /\ (type =? "Ed") = false /\ (type =? "PS") = false
      /\ (type =? "ES") = true
  | RSA_PKCS1 =>
      (type =? "HS") = false /\ (type =? "Ed") = false /\ (type =? "PS") = false
      /\ (type =? "ES") = false
  end.
Proof.
  unfold family_of. cbv zeta.
  destruct (slice algorithm 0 2 =? "HS"); [reflexivity |].
  destruct (slice algorithm 0 2 =? "Ed"); [now split |].
  destruct (String.eqb_spec (slice algorithm 0 2) "PS") as [-> | _];
    [now repeat split |].
  destruct (slice algorithm 0 2 =? "ES"); now repeat split.
Qed.

(** [dispatch H] turns [H : family_of a = F] into the outcome of the tests
    the two functions run on the prefix of [a], and rewrites with them. *)
Ltac dispatch H :=
  let F := fresh "Hfam" in
  match type of H with
  | family_of ?a = _ => pose proof (family_of_spec a) as F
  end;
  cbv zeta in F; rewrite H in F;
  repeat match type of F with
         | _ /\ _ => let F1 := fresh "Htype" in destruct F as [F1 F]
         end;
  repeat match goal with
         | E : (slice _ 0 2 =? _) = _ |- _ => rewrite !E; clear E
         end.

Ltac enter :=
  unfold run, createSignature, verifySignature, try_catch, bind; cbv zeta.

(** ** Key validation inside the two functions *)

Lemma createSignature_rejects (rt : Runtime) (algorithm : string) (key : jsval)
    (input message : string) :
  sign_key_defect rt algorithm key = Some message ->
  run (createSignature rt algorithm key input)
  = (Throws (signFailure (TokenError invalidKey message None)), []).
Proof.
  intros Hdefect. unfold sign_key_defect in Hdefect.
  destruct (family_of algorithm) eqn:Hf; enter; dispatch Hf.
  - destruct (is_string_or_buffer key) eqn:Hk; [discriminate |].
    injection Hdefect as <-.
    now rewrite validateSecretOrPublicKey_rejects.
  - destruct (rt_directSign rt); [| discriminate].
    now rewrite (validatePrivateKey_rejects _ _ _ _ Hdefect).
  - now rewrite (validatePrivateKey_rejects _ _ _ _ Hdefect).
  - now rewrite (validatePrivateKey_rejects _ _ _ _ Hdefect).
  - now rewrite (validatePrivateKey_rejects _ _ _ _ Hdefect).
Qed.

Lemma verifySignature_rejects (rt : Runtime) (algorithm : string) (key : jsval)
    (input signature message : string) :
  verify_key_defect algorithm key = Some message ->
  run (verifySignature rt algorithm key input signature)
  = (Throws (verifyFailure (TokenError invalidKey message None)), []).
Proof.
  intros Hdefect. unfold verify_key_defect in Hdefect.
  destruct (family_of algorithm) eqn:Hf; enter; dispatch Hf;
    try discriminate;
    (destruct (is_string_or_buffer key) eqn:Hk; [discriminate |]);
    injection Hdefect as <-;
    now rewrite validateSecretOrPublicKey_rejects.
Qed.

(** C2 (as amended): a key that fails the shape check of its family makes the
    call fail with SignError, respectively VerifyError, whose original error
    is the InvalidKey error with the message naming the field; nothing was
    called in [crypto] by then. *)
Theorem invalid_key_is_wrapped (rt : Runtime) (algorithm : string) (key : jsval)
    (input signature message : string) :
  (sign_key_defect rt algorithm key = Some message ->
   run (createSignature rt algorithm key input)
   = (Throws (signFailure (TokenError invalidKey message None)), []))
  /\ (verify_key_defect algorithm key = Some message ->
      run (verifySignature rt algorithm key input signature)
      = (Throws (verifyFailure (TokenError invalidKey message None)), [])).
Proof.
  split.
  - apply createSignature_rejects.
  - apply verifySignature_rejects.
Qed.

Lemma invalid_key_is_wrapped_witness :
  run (createSignature Demo.node "RS256" (JObj [("passphrase", JStr "pw")]) "msg")
  = (Throws (signFailure (TokenError invalidKey (keyPropertyMessage "RS256") None)), [])
  /\ run (verifySignature Demo.node "ES256" (JObj [("key", JStr "pem")]) "msg" "AAAA")
     = (Throws (verifyFailure (TokenError invalidKey (publicKeyMessage "ES256") None)), []).
Proof.
  split.
  - apply (proj1 (invalid_key_is_wrapped Demo.node "RS256"
                    (JObj [("passphrase", JStr "pw")]) "msg" "" _)).
    reflexivity.
  - apply (proj2 (invalid_key_is_wrapped Demo.node "ES256"
                    (JObj [("key", JStr "pem")]) "msg" "AAAA" _)).
    reflexivity.
Defined.

(** C2 (as stated) fails: the InvalidKey error of a key object without [key]
    is thrown inside the [try] block of [createSignature], so what the caller
    gets is the SignError of the [catch] block, with the InvalidKey error as
    its [originalError]. *)
Lemma invalid_key_reaches_caller_as_sign_error :
  fst (run (createSignature Demo.node "RS256" (JObj [("passphrase", JStr "pw")]) "msg"))
  = Throws
      (TokenError signError "Cannot create the signature."
         (Some
            (TokenError invalidKey
               "The key object for algorithm RS256 must have the key property as string or buffer containing the private key."
               None))).
Proof. reflexivity. Qed.

(** ** EdDSA on a runtime without it *)

(** C4 (as amended): where the runtime has no [crypto.sign] (no
    [crypto.verify]), an EdDSA call fails whatever the key is, before any key
    check and before any call into [crypto]: with SignError (VerifyError)
    around a [TokenError] of code [signError] that says EdDSA is not
    supported. *)
Theorem eddsa_unsupported (rt : Runtime) (algorithm : string) (key : jsval)
    (input signature : string) :
  family_of algorithm = EdDSA ->
  (rt_directSign rt = None ->
   run (createSignature rt algorithm key input)
   = (Throws (signFailure (TokenError signError eddsaMessage None)), []))
  /\ (rt_directVerify rt = None ->
      run (verifySignature rt algorithm key input signature)
      = (Throws (verifyFailure (TokenError signError eddsaMessage None)), [])).
Proof.
  intros Hf. split; intros Hnone; enter; dispatch Hf; now rewrite Hnone.
Qed.

Lemma eddsa_unsupported_witness :
  run (createSignature Demo.node10 "EdDSA" (JNum 7) "msg")
  = (Throws (signFailure (TokenError signError eddsaMessage None)), [])
  /\ run (verifySignature Demo.node10 "EdDSA" (JNum 7) "msg" "AAAA")
     = (Throws (verifyFailure (TokenError signError eddsaMessage None)), []).
Proof.
  split.
  - apply (proj1 (eddsa_unsupported Demo.node10 "EdDSA" (JNum 7) "msg" "AAAA" eq_refl)).
    reflexivity.
  - apply (proj2 (eddsa_unsupported Demo.node10 "EdDSA" (JNum 7) "msg" "AAAA" eq_refl)).
    reflexivity.
Defined.

(** C4 (as stated) fails: the error of an EdDSA call on Node 10 is of the
    kind SignError, inside and out; there is no kind of its own for an
    unsupported algorithm. *)
Lemma eddsa_unsupported_is_a_sign_error :
  fst (run (createSignature Demo.node10 "EdDSA" (JStr "pem") "msg"))
  = Throws
      (TokenError signError "Cannot create the signature."
         (Some
            (TokenError signError
               "EdDSA algorithms are not supported by your Node.js version." None))).
Proof. reflexivity. Qed.

(** ** The passphrase of a key object *)

(** C10: on a key object whose [key] is a string or a buffer,
    [validatePrivateKey] does not look at the type of a falsy [passphrase]
    and returns the object; a truthy [passphrase] passes exactly when it is a
    string or a buffer. *)
Theorem validatePrivateKey_passphrase (algorithm : string) (props : jsobj) :
  is_string_or_buffer (obj_get "key" props) = true ->
  (truthy (obj_get "passphrase" props) = false ->
   run (validatePrivateKey algorithm (JObj props)) = (Returns (JObj props), []))
  /\ (truthy (obj_get "passphrase" props) = true ->
      run (validatePrivateKey algorithm (JObj props))
      = (if is_string_or_buffer (obj_get "passphrase" props) then Returns (JObj props)
         else Throws (TokenError invalidKey (passphrasePropertyMessage algorithm) None),
         [])).
Proof.
  intros Hkey. unfold run. rewrite validatePrivateKey_object, Hkey. cbn [negb].
  split; intros Hp; rewrite Hp; cbn [andb]; [reflexivity |].
  now destruct (is_string_or_buffer (obj_get "passphrase" props)).
Qed.

Lemma validatePrivateKey_passphrase_witness :
  (run (validatePrivateKey "RS256" (JObj [("key", JStr "pem"); ("passphrase", JStr "")]))
   = (Returns (JObj [("key", JStr "pem"); ("passphrase", JStr "")]), [])
   /\ run (validatePrivateKey "RS256" (JObj [("key", JStr "pem"); ("passphrase", JNum 0)]))
      = (Returns (JObj [("key", JStr "pem"); ("passphrase", JNum 0)]), [])
   /\ run (validatePrivateKey "RS256" (JObj [("key", JStr "pem"); ("passphrase", JNull)]))
      = (Returns (JObj [("key", JStr "pem"); ("passphrase", JNull)]), []))
  /\ run (validatePrivateKey "RS256" (JObj [("key", JStr "pem"); ("passphrase", JNum 1)]))
     = (Throws (TokenError invalidKey (passphrasePropertyMessage "RS256") None), []).
Proof.
  split; [split; [| split] |].
  - apply (proj1 (validatePrivateKey_passphrase "RS256"
                    [("key", JStr "pem"); ("passphrase", JStr "")] eq_refl)).
    reflexivity.
  - apply (proj1 (validatePrivateKey_passphrase "RS256"
                    [("key", JStr "pem"); ("passphrase", JNum 0)] eq_refl)).
    reflexivity.
  - apply (proj1 (validatePrivateKey_passphrase "RS256"
                    [("key", JStr "pem"); ("passphrase", JNull)] eq_refl)).
    reflexivity.
  - apply (proj2 (validatePrivateKey_passphrase "RS256"
                    [("key", JStr "pem"); ("passphrase", JNum 1)] eq_refl)).
    reflexivity.
Defined.

(** ** The paths through [verifySignature] *)

Lemma bytes_eqb_eq (a b : list byte) : bytes_eqb a b = true <-> a = b.
Proof.
  revert b. induction a as [| x a IH]; intros [| y b]; cbn; try easy.
  rewrite andb_true_iff, IH. split.
  - intros [Hxy ->]. now rewrite (Byte.byte_dec_bl _ _ Hxy).
  - intros [= -> ->]. split; [apply Byte.byte_dec_lb |]; reflexivity.
Qed.

(** What [timingSafeEqual] inside its [try] amounts to. *)
Lemma guarded_comparison (mac signature : list byte) :
  Nat.eqb (List.length mac) (List.length signature) && bytes_eqb mac signature = true
  <-> mac = signature.
Proof.
  rewrite andb_true_iff, bytes_eqb_eq, Nat.eqb_eq. split.
  - now intros [_ ->].
  - now intros ->.
Qed.

Lemma verify_hmac_path (rt : Runtime) (algorithm : string) (key : jsval)
    (input signature : string) :
  family_of algorithm = HMAC ->
  is_string_or_buffer key = true ->
  run (verifySignature rt algorithm key input signature)
  = match rt_createHmac rt ("SHA" ++ slice_from algorithm 2) key input with
    | Returns mac =>
        (Returns (Nat.eqb (List.length mac) (List.length (Base64.decode signature))
                  && bytes_eqb mac (Base64.decode signature)),
         [CreateHmac ("SHA" ++ slice_from algorithm 2) key input;
          TimingSafeEqual mac (Base64.decode signature)])
    | Throws _ =>
        (Returns false, [CreateHmac ("SHA" ++ slice_from algorithm 2) key input])
    end.
Proof.
  intros Hf Hk. enter. dispatch Hf.
  rewrite validateSecretOrPublicKey_accepts by exact Hk.
  unfold createHmac, timingSafeEqual, invoke, ret. cbn [app].
  destruct (rt_createHmac rt _ key input) as [mac | e]; [| reflexivity].
  now destruct (Nat.eqb (List.length mac) (List.length (Base64.decode signature))).
Qed.

Lemma verify_eddsa_path (rt : Runtime) (algorithm : string) (key : jsval)
    (input signature : string)
    (directVerify : list byte -> jsval -> list byte -> outcome bool) :
  family_of algorithm = EdDSA ->
  rt_directVerify rt = Some directVerify ->
  run (verifySignature rt algorithm key input signature)
  = (rethrow verifyFailure
       (directVerify (Buffer_from_utf8 input) key (Base64.decode signature)),
     [DirectVerify (Buffer_from_utf8 input) key (Base64.decode signature)]).
Proof.
  intros Hf Hdv. enter. dispatch Hf. rewrite Hdv. unfold invoke. cbn [app].
  now destruct (directVerify _ key _).
Qed.

Lemma verify_pkcs1_path (rt : Runtime) (algorithm : string) (key : jsval)
    (input signature : string) :
  family_of algorithm = RSA_PKCS1 ->
  is_string_or_buffer key = true ->
  let options :=
    [("key", key); ("padding", JNum RSA_PKCS1_PADDING);
     ("saltLength", JNum RSA_PSS_SALTLEN_AUTO)] in
  run (verifySignature rt algorithm key input signature)
  = (rethrow verifyFailure
       (rt_createVerify rt ("RSA-SHA" ++ slice_from algorithm 2) options input
          (Base64.decode signature)),
     [CreateVerify ("RSA-SHA" ++ slice_from algorithm 2) options input
        (Base64.decode signature)]).
Proof.
  intros Hf Hk options. enter. dispatch Hf.
  rewrite validateSecretOrPublicKey_accepts by exact Hk.
  unfold createVerify, invoke, ret. cbn [app fst snd].
  now destruct (rt_createVerify rt _ _ input _).
Qed.

Lemma verify_pss_path (rt : Runtime) (algorithm : string) (key : jsval)
    (input signature : string) :
  family_of algorithm = RSA_PSS ->
  is_string_or_buffer key = true ->
  let options :=
    [("key", key); ("padding", JNum RSA_PKCS1_PSS_PADDING);
     ("saltLength", JNum RSA_PSS_SALTLEN_DIGEST)] in
  run (verifySignature rt algorithm key input signature)
  = (rethrow verifyFailure
       (rt_createVerify rt ("RSA-SHA" ++ slice_from algorithm 2) options input
          (Base64.decode signature)),
     [CreateVerify ("RSA-SHA" ++ slice_from algorithm 2) options input
        (Base64.decode signature)]).
Proof.
  intros Hf Hk options. enter. dispatch Hf.
  rewrite validateSecretOrPublicKey_accepts by exact Hk.
  unfold createVerify, invoke, ret. cbn [app fst snd obj_set String.eqb Ascii.eqb Bool.eqb].
  cbv iota. fold options.
  now destruct (rt_createVerify rt _ _ input _).
Qed.

Lemma verify_ecdsa_path (rt : Runtime) (algorithm : string) (key : jsval)
    (input signature : string) :
  family_of algorithm = ECDSA ->
  is_string_or_buffer key = true ->
  let options :=
    [("key", key); ("padding", JNum RSA_PKCS1_PADDING);
     ("saltLength", JNum RSA_PSS_SALTLEN_AUTO)] in
  run (verifySignature rt algorithm key input signature)
  = match rt_joseToDer rt (Base64.decode signature) algorithm with
    | Returns der =>
        (rethrow verifyFailure
           (rt_createVerify rt ("RSA-SHA" ++ slice_from algorithm 2) options input der),
         [JoseToDer (Base64.decode signature) algorithm;
          CreateVerify ("RSA-SHA" ++ slice_from algorithm 2) options input der])
    | Throws e =>
        (Throws (verifyFailure e), [JoseToDer (Base64.decode signature) algorithm])
    end.
Proof.
  intros Hf Hk options. enter. dispatch Hf.
  rewrite validateSecretOrPublicKey_accepts by exact Hk.
  unfold joseToDer, createVerify, invoke, ret. cbn [app fst snd].
  destruct (rt_joseToDer rt _ algorithm) as [der | e]; [| reflexivity].
  cbn [app fst snd].
  now destruct (rt_createVerify rt _ _ input der).
Qed.

(** ** The paths through [createSignature] *)

Lemma sign_hmac_path (rt : Runtime) (algorithm : string) (key : jsval)
    (input : string) :
  family_of algorithm = HMAC ->
  is_string_or_buffer key = true ->
  run (createSignature rt algorithm key input)
  = (rethrow signFailure
       (outcome_map toUrlSafe
          (rt_createHmac rt ("SHA" ++ slice_from algorithm 2) key input)),
     [CreateHmac ("SHA" ++ slice_from algorithm 2) key input]).
Proof.
  intros Hf Hk. enter. dispatch Hf.
  rewrite validateSecretOrPublicKey_accepts by exact Hk.
  unfold createHmac, invoke, ret. cbn [app].
  now destruct (rt_createHmac rt _ key input).
Qed.

Lemma sign_eddsa_path (rt : Runtime) (algorithm : string) (key : jsval)
    (input : string) (directSign : list byte -> jsval -> outcome (list byte)) :
  family_of algorithm = EdDSA ->
  rt_directSign rt = Some directSign ->
  private_key_shape key = true ->
  run (createSignature rt algorithm key input)
  = (rethrow signFailure
       (outcome_map toUrlSafe (directSign (Buffer_from_utf8 input) key)),
     [DirectSign (Buffer_from_utf8 input) key]).
Proof.
  intros Hf Hds Hk. enter. dispatch Hf. rewrite Hds.
  rewrite validatePrivateKey_accepts by exact Hk.
  unfold invoke, ret. cbn [app].
  now destruct (directSign _ key).
Qed.

Lemma sign_pkcs1_path (rt : Runtime) (algorithm : string) (key : jsval)
    (input : string) :
  family_of algorithm = RSA_PKCS1 ->
  private_key_shape key = true ->
  run (createSignature rt algorithm key input)
  = (rethrow signFailure
       (outcome_map toUrlSafe
          (rt_createSign rt ("RSA-SHA" ++ slice_from algorithm 2)
             (pkcs1_sign_options key) input)),
     [CreateSign ("RSA-SHA" ++ slice_from algorithm 2) (pkcs1_sign_options key) input]).
Proof.
  intros Hf Hk. enter. dispatch Hf.
  rewrite validatePrivateKey_accepts by exact Hk.
  unfold createSign, invoke, ret. cbn [app spread]. fold (pkcs1_sign_options key).
  cbn [append]. now destruct (rt_createSign rt _ _ input).
Qed.

Lemma sign_pss_path (rt : Runtime) (algorithm : string) (key : jsval)
    (input : string) :
  family_of algorithm = RSA_PSS ->
  private_key_shape key = true ->
  run (createSignature rt algorithm key input)
  = (rethrow signFailure
       (outcome_map toUrlSafe
          (rt_createSign rt ("RSA-SHA" ++ slice_from algorithm 2)
             (pss_sign_options key) input)),
     [CreateSign ("RSA-SHA" ++ slice_from algorithm 2) (pss_sign_options key) input]).
Proof.
  intros Hf Hk. enter. dispatch Hf.
  rewrite validatePrivateKey_accepts by exact Hk.
  unfold createSign, invoke, ret. cbn [app spread].
  fold (pkcs1_sign_options key). fold (pss_sign_options key).
  cbn [append]. now destruct (rt_createSign rt _ _ input).
Qed.

Lemma sign_ecdsa_path (rt : Runtime) (algorithm : string) (key : jsval)
    (input : string) :
  family_of algorithm = ECDSA ->
  private_key_shape key = true ->
  run (createSignature rt algorithm key input)
  = match rt_createSign rt ("RSA-SHA" ++ slice_from algorithm 2)
            (pkcs1_sign_options key) input with
    | Returns der =>
        (rethrow signFailure
           (outcome_map (String_replace base64UrlMatcher base64UrlReplacer)
              (rt_derToJose rt (Base64.encode der) algorithm)),
         [CreateSign ("RSA-SHA" ++ slice_from algorithm 2) (pkcs1_sign_options key) input;
          DerToJose (Base64.encode der) algorithm])
    | Throws e =>
        (Throws (signFailure e),
         [CreateSign ("RSA-SHA" ++ slice_from algorithm 2) (pkcs1_sign_options key) input])
    end.
Proof.
  intros Hf Hk. enter. dispatch Hf.
  rewrite validatePrivateKey_accepts by exact Hk.
  unfold createSign, derToJose, invoke, ret. cbn [app spread].
  fold (pkcs1_sign_options key).
  cbn [append].
  destruct (rt_createSign rt _ _ input) as [der | e]; [| reflexivity].
  cbn [app].
  now destruct (rt_derToJose rt _ algorithm).
Qed.

(** ** RSA-PSS verification *)

(** C3 (as amended): a PS verification with a string or buffer key runs the
    native verifier once, with PSS padding and the salt length set to the
    digest length, the setting the PS signer uses, and not to automatic
    detection; the native answer is returned, a native exception rethrown as
    VerifyError. *)
Theorem pss_verification_salt_length (rt : Runtime) (algorithm : string)
    (key : jsval) (input signature : string) :
  family_of algorithm = RSA_PSS ->
  is_string_or_buffer key = true ->
  run (verifySignature rt algorithm key input signature)
  = (rethrow verifyFailure
       (rt_createVerify rt ("RSA-SHA" ++ slice_from algorithm 2)
          [("key", key); ("padding", JNum RSA_PKCS1_PSS_PADDING);
           ("saltLength", JNum RSA_PSS_SALTLEN_DIGEST)]
          input (fromUrlSafe signature)),
     [CreateVerify ("RSA-SHA" ++ slice_from algorithm 2)
        [("key", key); ("padding", JNum RSA_PKCS1_PSS_PADDING);
         ("saltLength", JNum RSA_PSS_SALTLEN_DIGEST)]
        input (fromUrlSafe signature)])
  /\ (forall sk,
        private_key_shape sk = true ->
        exists options,
          snd (run (createSignature rt algorithm sk input))
          = [CreateSign ("RSA-SHA" ++ slice_from algorithm 2) options input]
          /\ obj_get "padding" options = JNum RSA_PKCS1_PSS_PADDING
          /\ obj_get "saltLength" options = JNum RSA_PSS_SALTLEN_DIGEST).
Proof.
  intros Hf Hk. split.
  - exact (verify_pss_path rt algorithm key input signature Hf Hk).
  - intros sk Hsk. exists (pss_sign_options sk).
    rewrite (sign_pss_path rt algorithm sk input Hf Hsk). cbn [snd].
    split; [reflexivity |]. unfold pss_sign_options. split.
    + rewrite obj_get_set_other by discriminate. apply obj_get_set_same.
    + apply obj_get_set_same.
Qed.

Lemma pss_verification_salt_length_witness :
  run (verifySignature Demo.node "PS256" (JStr "pem") "msg" "AAAA")
  = (Returns false,
     [CreateVerify "RSA-SHA256"
        [("key", JStr "pem"); ("padding", JNum 6); ("saltLength", JNum (-1))]
        "msg" [x00; x00; x00]]).
Proof.
  exact (proj1 (pss_verification_salt_length Demo.node "PS256" (JStr "pem")
                  "msg" "AAAA" eq_refl eq_refl)).
Defined.

(** C3 (as stated) fails: the options of a PS256 verification carry the
    salt length [RSA_PSS_SALTLEN_DIGEST], which is not
    [RSA_PSS_SALTLEN_AUTO]; so a PSS signature with a salt of 20 bytes, which
    a verifier on automatic detection accepts, is turned down by
    [verifySignature]. *)
Lemma pss_verification_is_not_automatic :
  snd (run (verifySignature Demo.node "PS256" (JStr "pem") "msg"
              (toUrlSafe Demo.salt20_signature)))
  = [CreateVerify "RSA-SHA256"
       [("key", JStr "pem"); ("padding", JNum RSA_PKCS1_PSS_PADDING);
        ("saltLength", JNum RSA_PSS_SALTLEN_DIGEST)]
       "msg" Demo.salt20_signature]
  /\ RSA_PSS_SALTLEN_DIGEST <> RSA_PSS_SALTLEN_AUTO
  /\ Demo.createVerify "RSA-SHA256"
       [("key", JStr "pem"); ("padding", JNum RSA_PKCS1_PSS_PADDING);
        ("saltLength", JNum RSA_PSS_SALTLEN_AUTO)]
       "msg" Demo.salt20_signature
     = Returns true
  /\ fst (run (verifySignature Demo.node "PS256" (JStr "pem") "msg"
                 (toUrlSafe Demo.salt20_signature)))
     = Returns false.
Proof.
  split; [vm_compute; reflexivity |].
  split; [discriminate |].
  split; vm_compute; reflexivity.
Qed.

(** ** EdDSA verification *)

(** C7 (the code at the failing input): with no key at all, the EdDSA branch
    of [verifySignature] still calls the native verifier, on the bytes of the
    message, the missing key and the decoded signature; what fails is that
    call, and its [TypeError] comes back inside a VerifyError.  No key check
    ran first, unlike in every other branch. *)
Theorem eddsa_verify_checks_no_key :
  run (verifySignature Demo.node "EdDSA" JUndefined "msg" "AAAA")
  = (Throws (verifyFailure (NativeError "TypeError")),
     [DirectVerify (Buffer_from_utf8 "msg") JUndefined [x00; x00; x00]])
  /\ run (verifySignature Demo.node "RS256" JUndefined "msg" "AAAA")
     = (Throws (verifyFailure (TokenError invalidKey (publicKeyMessage "RS256") None)),
        []).
Proof. split; reflexivity. Qed.

(** ** Identifiers of no known family *)

Lemma family_of_other (algorithm : string) :
  slice algorithm 0 2 <> "HS" ->
  slice algorithm 0 2 <> "Ed" ->
  slice algorithm 0 2 <> "PS" ->
  slice algorithm 0 2 <> "ES" ->
  family_of algorithm = RSA_PKCS1.
Proof.
  intros H1 H2 H3 H4. unfold family_of. cbv zeta.
  apply String.eqb_neq in H1, H2, H3, H4.
  now rewrite H1, H2, H3, H4.
Qed.

(** C9: an identifier that starts with none of [HS], [Ed], [PS], [ES] is not
    turned down: with a well-shaped key, [createSignature] and
    [verifySignature] call the native signer and verifier for the scheme
    [RSA-SHA] followed by the rest of the identifier, with PKCS#1 v1.5
    padding, and hand on what these answer. *)
Theorem unknown_prefix_takes_rsa_pkcs1_path (rt : Runtime) (algorithm : string)
    (key : jsval) (input signature : string) :
  slice algorithm 0 2 <> "HS" ->
  slice algorithm 0 2 <> "Ed" ->
  slice algorithm 0 2 <> "PS" ->
  slice algorithm 0 2 <> "ES" ->
  (private_key_shape key = true ->
   run (createSignature rt algorithm key input)
   = (rethrow signFailure
        (outcome_map toUrlSafe
           (rt_createSign rt ("RSA-" ++ "SHA" ++ slice_from algorithm 2)
              (obj_set "saltLength" (JNum RSA_PSS_SALTLEN_MAX_SIGN)
                 (obj_set "padding" (JNum RSA_PKCS1_PADDING) (private_key_object key)))
              input)),
      [CreateSign ("RSA-" ++ "SHA" ++ slice_from algorithm 2)
         (obj_set "saltLength" (JNum RSA_PSS_SALTLEN_MAX_SIGN)
            (obj_set "padding" (JNum RSA_PKCS1_PADDING) (private_key_object key)))
         input]))
  /\ (is_string_or_buffer key = true ->
      run (verifySignature rt algorithm key input signature)
      = (rethrow verifyFailure
           (rt_createVerify rt ("RSA-" ++ "SHA" ++ slice_from algorithm 2)
              [("key", key); ("padding", JNum RSA_PKCS1_PADDING);
               ("saltLength", JNum RSA_PSS_SALTLEN_AUTO)]
              input (fromUrlSafe signature)),
         [CreateVerify ("RSA-" ++ "SHA" ++ slice_from algorithm 2)
            [("key", key); ("padding", JNum RSA_PKCS1_PADDING);
             ("saltLength", JNum RSA_PSS_SALTLEN_AUTO)]
            input (fromUrlSafe signature)])).
Proof.
  intros H1 H2 H3 H4.
  pose proof (family_of_other algorithm H1 H2 H3 H4) as Hf.
  split; intros Hk.
  - exact (sign_pkcs1_path rt algorithm key input Hf Hk).
  - exact (verify_pkcs1_path rt algorithm key input signature Hf Hk).
Qed.

Lemma unknown_prefix_takes_rsa_pkcs1_path_witness :
  run (createSignature Demo.node "XX999" (JStr "pem") "msg")
  = (Throws (signFailure (NativeError "Error")),
     [CreateSign "RSA-SHA999"
        [("key", JStr "pem"); ("padding", JNum 1); ("saltLength", JNum (-2))] "msg"])
  /\ run (verifySignature Demo.node "none" (JStr "pem") "msg" "AAAA")
     = (Throws (verifyFailure (NativeError "Error")),
        [CreateVerify "RSA-SHAne"
           [("key", JStr "pem"); ("padding", JNum 1); ("saltLength", JNum (-2))]
           "msg" [x00; x00; x00]])
  /\ run (verifySignature Demo.node "éS256" (JStr "pem") "msg" "AAAA")
     = (Returns false,
        [CreateVerify "RSA-SHA256"
           [("key", JStr "pem"); ("padding", JNum 1); ("saltLength", JNum (-2))]
           "msg" [x00; x00; x00]]).
Proof.
  split; [| split].
  - apply (proj1 (unknown_prefix_takes_rsa_pkcs1_path Demo.node "XX999" (JStr "pem")
                    "msg" "" ltac:(discriminate) ltac:(discriminate)
                    ltac:(discriminate) ltac:(discriminate))).
    reflexivity.
  - apply (proj2 (unknown_prefix_takes_rsa_pkcs1_path Demo.node "none" (JStr "pem")
                    "msg" "AAAA" ltac:(discriminate) ltac:(discriminate)
                    ltac:(discriminate) ltac:(discriminate))).
    reflexivity.
  - apply (proj2 (unknown_prefix_takes_rsa_pkcs1_path Demo.node "éS256" (JStr "pem")
                    "msg" "AAAA" ltac:(discriminate) ltac:(discriminate)
                    ltac:(discriminate) ltac:(discriminate))).
    reflexivity.
Defined.

(** ** The wire form *)

(** C8: the wire form is the base64 text with [=] dropped, [+] turned into
    [-] and [/] into [_]; it is defined on every byte sequence, and reading
    it back with [Buffer.from(_, 'base64')] gives the bytes again, whatever
    their number. *)
Theorem url_safe_round_trip (bytes : list byte) :
  toUrlSafe bytes = spec_toUrlSafe bytes
  /\ fromUrlSafe (toUrlSafe bytes) = bytes.
Proof.
  split.
  - apply String_replace_spec.
  - apply Base64Facts.decode_toUrlSafe.
Qed.

(** ** Signatures that do not match *)

Lemma verify_key_defect_of_bad_key (algorithm : string) (key : jsval) :
  family_of algorithm <> EdDSA ->
  is_string_or_buffer key = false ->
  exists message, verify_key_defect algorithm key = Some message.
Proof.
  intros Hf Hk. unfold verify_key_defect. rewrite Hk.
  destruct (family_of algorithm); try congruence; eexists; reflexivity.
Qed.

Lemma eddsa_verify_log (rt : Runtime) (algorithm : string) (key : jsval)
    (input signature : string) :
  family_of algorithm = EdDSA ->
  rt_directVerify rt = None ->
  snd (run (verifySignature rt algorithm key input signature)) = [].
Proof.
  intros Hf Hnone. enter. dispatch Hf. now rewrite Hnone.
Qed.

(** The verdict of the native verifier, where one was asked, is the result. *)
Lemma native_verdict_is_returned (rt : Runtime) (algorithm : string) (key : jsval)
    (input signature : string) (c : call) (b : bool) :
  In c (snd (run (verifySignature rt algorithm key input signature))) ->
  native_verdict rt c = Some (Returns b) ->
  fst (run (verifySignature rt algorithm key input signature)) = Returns b.
Proof.
  intros Hin Hv.
  destruct (family_of algorithm) eqn:Hf.
  - destruct (is_string_or_buffer key) eqn:Hk.
    + rewrite verify_hmac_path in Hin by assumption.
      destruct (rt_createHmac rt _ key input); cbn in Hin;
        repeat (destruct Hin as [<- | Hin]; [discriminate |]); destruct Hin.
    + destruct (verify_key_defect_of_bad_key algorithm key) as [m Hm];
        [congruence | assumption |].
      rewrite (verifySignature_rejects rt _ _ input signature _ Hm) in Hin.
      destruct Hin.
  - destruct (rt_directVerify rt) as [dv |] eqn:Hdv.
    + rewrite (verify_eddsa_path rt _ key input signature dv Hf Hdv) in Hin |- *.
      cbn in Hin. destruct Hin as [<- | []].
      cbn in Hv. rewrite Hdv in Hv. injection Hv as Hv.
      exact (f_equal (rethrow verifyFailure) Hv).
    + rewrite (eddsa_verify_log rt algorithm key input signature Hf Hdv) in Hin.
      destruct Hin.
  - destruct (is_string_or_buffer key) eqn:Hk.
    + rewrite (verify_pkcs1_path rt _ key input signature Hf Hk) in Hin |- *.
      cbn in Hin. destruct Hin as [<- | []].
      cbn in Hv. injection Hv as Hv.
      exact (f_equal (rethrow verifyFailure) Hv).
    + destruct (verify_key_defect_of_bad_key algorithm key) as [m Hm];
        [congruence | assumption |].
      rewrite (verifySignature_rejects rt _ _ input signature _ Hm) in Hin.
      destruct Hin.
  - destruct (is_string_or_buffer key) eqn:Hk.
    + rewrite (verify_pss_path rt _ key input signature Hf Hk) in Hin |- *.
      cbn in Hin. destruct Hin as [<- | []].
      cbn in Hv. injection Hv as Hv.
      exact (f_equal (rethrow verifyFailure) Hv).
    + destruct (verify_key_defect_of_bad_key algorithm key) as [m Hm];
        [congruence | assumption |].
      rewrite (verifySignature_rejects rt _ _ input signature _ Hm) in Hin.
      destruct Hin.
  - destruct (is_string_or_buffer key) eqn:Hk.
    + rewrite (verify_ecdsa_path rt _ key input signature Hf Hk) in Hin |- *.
      destruct (rt_joseToDer rt _ algorithm) as [der | e]; cbn in Hin.
      * destruct Hin as [<- | [<- | []]]; [discriminate |].
        cbn in Hv. injection Hv as Hv.
      exact (f_equal (rethrow verifyFailure) Hv).
      * destruct Hin as [<- | []]. discriminate.
    + destruct (verify_key_defect_of_bad_key algorithm key) as [m Hm];
        [congruence | assumption |].
      rewrite (verifySignature_rejects rt _ _ input signature _ Hm) in Hin.
      destruct Hin.
Qed.

Lemma timingSafeEqual_length_mismatch (a b : list byte) :
  List.length a <> List.length b ->
  fst (run (timingSafeEqual a b)) = Throws (NativeError "RangeError").
Proof.
  intros Hlen. unfold run, timingSafeEqual, invoke. cbn [fst].
  apply Nat.eqb_neq in Hlen. now rewrite Hlen.
Qed.

(** C5: a signature that does not match is answered with [false], not with
    an exception.  For the HMAC family with a string or buffer secret the
    call always returns a boolean, [true] exactly when the native MAC is the
    decoded signature; where the two differ in length, the comparator
    throws and the result is [false].  For the other families, with a key
    the family takes (and, for ECDSA, a signature [joseToDer] converts), the
    native verifier is asked about the decoded signature, and the boolean it
    answers, [false] on a mismatch, is the result. *)
Theorem mismatch_returns_false (rt : Runtime) (algorithm : string) (key : jsval)
    (input signature : string) :
  (family_of algorithm = HMAC ->
   is_string_or_buffer key = true ->
   (exists b,
      fst (run (verifySignature rt algorithm key input signature)) = Returns b
      /\ (b = true <->
          rt_createHmac rt ("SHA" ++ slice_from algorithm 2) key input
          = Returns (fromUrlSafe signature)))
   /\ (forall mac,
         rt_createHmac rt ("SHA" ++ slice_from algorithm 2) key input = Returns mac ->
         List.length mac <> List.length (fromUrlSafe signature) ->
         fst (run (timingSafeEqual mac (fromUrlSafe signature)))
         = Throws (NativeError "RangeError")
         /\ fst (run (verifySignature rt algorithm key input signature))
            = Returns false))
  /\ (forall c b,
        In c (snd (run (verifySignature rt algorithm key input signature))) ->
        native_verdict rt c = Some (Returns b) ->
        fst (run (verifySignature rt algorithm key input signature)) = Returns b)
  /\ (family_of algorithm = EdDSA ->
      forall directVerify b,
        rt_directVerify rt = Some directVerify ->
        directVerify (Buffer_from_utf8 input) key (fromUrlSafe signature) = Returns b ->
        run (verifySignature rt algorithm key input signature)
        = (Returns b,
           [DirectVerify (Buffer_from_utf8 input) key (fromUrlSafe signature)]))
  /\ (family_of algorithm = RSA_PKCS1 ->
      is_string_or_buffer key = true ->
      forall b,
        rt_createVerify rt ("RSA-SHA" ++ slice_from algorithm 2)
          (verify_options key RSA_PKCS1_PADDING RSA_PSS_SALTLEN_AUTO)
          input (fromUrlSafe signature) = Returns b ->
        run (verifySignature rt algorithm key input signature)
        = (Returns b,
           [CreateVerify ("RSA-SHA" ++ slice_from algorithm 2)
              (verify_options key RSA_PKCS1_PADDING RSA_PSS_SALTLEN_AUTO)
              input (fromUrlSafe signature)]))
  /\ (family_of algorithm = RSA_PSS ->
      is_string_or_buffer key = true ->
      forall b,
        rt_createVerify rt ("RSA-SHA" ++ slice_from algorithm 2)
          (verify_options key RSA_PKCS1_PSS_PADDING RSA_PSS_SALTLEN_DIGEST)
          input (fromUrlSafe signature) = Returns b ->
        run (verifySignature rt algorithm key input signature)
        = (Returns b,
           [CreateVerify ("RSA-SHA" ++ slice_from algorithm 2)
              (verify_options key RSA_PKCS1_PSS_PADDING RSA_PSS_SALTLEN_DIGEST)
              input (fromUrlSafe signature)]))
  /\ (family_of algorithm = ECDSA ->
      is_string_or_buffer key = true ->
      forall der b,
        rt_joseToDer rt (fromUrlSafe signature) algorithm = Returns der ->
        rt_createVerify rt ("RSA-SHA" ++ slice_from algorithm 2)
          (verify_options key RSA_PKCS1_PADDING RSA_PSS_SALTLEN_AUTO)
          input der = Returns b ->
        run (verifySignature rt algorithm key input signature)
        = (Returns b,
           [JoseToDer (fromUrlSafe signature) algorithm;
            CreateVerify ("RSA-SHA" ++ slice_from algorithm 2)
              (verify_options key RSA_PKCS1_PADDING RSA_PSS_SALTLEN_AUTO)
              input der])).
Proof.
  unfold fromUrlSafe, verify_options.
  split; [| split; [| split; [| split; [| split]]]].
  - intros Hf Hk. rewrite (verify_hmac_path rt _ key input signature Hf Hk).
    split.
    + destruct (rt_createHmac rt _ key input) as [mac | e]; cbn [fst].
      * eexists. split; [reflexivity |].
        rewrite guarded_comparison. split; [now intros -> | now intros [= ->]].
      * exists false. split; [reflexivity |]. split; discriminate.
    + intros mac Hmac Hlen. rewrite Hmac. cbn [fst].
      split; [now apply timingSafeEqual_length_mismatch |].
      apply Nat.eqb_neq in Hlen. now rewrite Hlen.
  - intros c b. apply native_verdict_is_returned.
  - intros Hf dv b Hdv Hb.
    now rewrite (verify_eddsa_path rt _ key input signature dv Hf Hdv), Hb.
  - intros Hf Hk b Hb.
    rewrite (verify_pkcs1_path rt _ key input signature Hf Hk).
    now rewrite Hb.
  - intros Hf Hk b Hb.
    rewrite (verify_pss_path rt _ key input signature Hf Hk).
    now rewrite Hb.
  - intros Hf Hk der b Hder Hb.
    rewrite (verify_ecdsa_path rt _ key input signature Hf Hk), Hder.
    now rewrite Hb.
Qed.

Lemma mismatch_returns_false_witness :
  fst (run (verifySignature Demo.node "HS256" (JStr "secret") "msg" "AAAA"))
  = Returns false
  /\ run (verifySignature Demo.node "EdDSA" (JStr "pem") "msg" "AAAA")
     = (Returns false, [DirectVerify [x6d; x73; x67] (JStr "pem") [x00; x00; x00]])
  /\ run (verifySignature Demo.node "RS256" (JStr "pem") "msg" "AAAA")
     = (Returns false,
        [CreateVerify "RSA-SHA256"
           [("key", JStr "pem"); ("padding", JNum 1); ("saltLength", JNum (-2))]
           "msg" [x00; x00; x00]])
  /\ run (verifySignature Demo.node "PS256" (JStr "pem") "msg" "AAAA")
     = (Returns false,
        [CreateVerify "RSA-SHA256"
           [("key", JStr "pem"); ("padding", JNum 6); ("saltLength", JNum (-1))]
           "msg" [x00; x00; x00]])
  /\ run (verifySignature Demo.node "ES256" (JStr "pem") "msg" "AAAA")
     = (Returns false,
        [JoseToDer [x00; x00; x00] "ES256";
         CreateVerify "RSA-SHA256"
           [("key", JStr "pem"); ("padding", JNum 1); ("saltLength", JNum (-2))]
           "msg" [x00; x00; x00]]).
Proof.
  split; [| split; [| split; [| split]]].
  - refine (proj2 (proj2 (proj1 (mismatch_returns_false Demo.node "HS256"
                                   (JStr "secret") "msg" "AAAA") eq_refl eq_refl)
                     (Demo.fit 32 (list_byte_of_string "secretmsg")) eq_refl _)).
    vm_compute. discriminate.
  - exact (proj1 (proj2 (proj2 (mismatch_returns_false Demo.node "EdDSA"
                                  (JStr "pem") "msg" "AAAA")))
             eq_refl Demo.directVerify false eq_refl eq_refl).
  - exact (proj1 (proj2 (proj2 (proj2 (mismatch_returns_false Demo.node "RS256"
                                         (JStr "pem") "msg" "AAAA"))))
             eq_refl eq_refl false eq_refl).
  - exact (proj1 (proj2 (proj2 (proj2 (proj2
             (mismatch_returns_false Demo.node "PS256" (JStr "pem") "msg" "AAAA")))))
             eq_refl eq_refl false eq_refl).
  - exact (proj2 (proj2 (proj2 (proj2 (proj2
             (mismatch_returns_false Demo.node "ES256" (JStr "pem") "msg" "AAAA")))))
             eq_refl eq_refl [x00; x00; x00] false eq_refl eq_refl).
Defined.

(** ** Signatures that are not base64 *)

Lemma verifySignature_throws_verifyError (rt : Runtime) (algorithm : string)
    (key : jsval) (input signature : string) (e : exn) :
  fst (run (verifySignature rt algorithm key input signature)) = Throws e ->
  exists cause, e = verifyFailure cause.
Proof.
  unfold run, verifySignature, try_catch.
  match goal with
  | |- fst (let (_, _) := ?body in _) = _ -> _ => destruct body as [[b | e'] log]
  end; cbn [fst throw].
  - discriminate.
  - intros [= <-]. now exists e'.
Qed.

(** C6 (as amended): reading the wire form never fails, and no error of
    [verifySignature] is a decoding error: whatever it throws is a
    VerifyError around the cause.  With a string or buffer secret and a MAC
    the runtime computes, an HMAC verification returns a boolean for every
    signature text, well-formed or not: [true] when the bytes read from the
    text are the MAC, [false] when they are not. *)
Theorem malformed_signature_is_no_error (rt : Runtime) (algorithm : string)
    (key : jsval) (input signature : string) :
  (forall e,
     fst (run (verifySignature rt algorithm key input signature)) = Throws e ->
     exists cause, e = verifyFailure cause)
  /\ (family_of algorithm = HMAC ->
      is_string_or_buffer key = true ->
      forall mac,
        rt_createHmac rt ("SHA" ++ slice_from algorithm 2) key input = Returns mac ->
        (fromUrlSafe signature = mac ->
         fst (run (verifySignature rt algorithm key input signature)) = Returns true)
        /\ (fromUrlSafe signature <> mac ->
            fst (run (verifySignature rt algorithm key input signature))
            = Returns false)).
Proof.
  split.
  - intros e. apply verifySignature_throws_verifyError.
  - intros Hf Hk mac Hmac.
    rewrite (verify_hmac_path rt _ key input signature Hf Hk), Hmac.
    unfold fromUrlSafe. cbn [fst]. split; intros Hsig.
    + f_equal. apply guarded_comparison. now symmetry.
    + f_equal. apply not_true_is_false. rewrite guarded_comparison. congruence.
Qed.

Lemma malformed_signature_is_no_error_witness :
  fst (run (verifySignature Demo.node "HS256" (JStr "secret") "msg" "%%%="))
  = Returns false
  /\ fst (run (verifySignature Demo.node "HS256" (JStr "secret") "msg"
                 "c2VjcmV0bXNnAAAAAAAAAAAAAAAAAAAAAAAAAAAAAAA"))
     = Returns true.
Proof.
  split.
  - refine (proj2 (proj2 (malformed_signature_is_no_error Demo.node "HS256"
                            (JStr "secret") "msg" "%%%=") eq_refl eq_refl
                     (Demo.fit 32 (list_byte_of_string "secretmsg")) eq_refl) _).
    vm_compute. discriminate.
  - refine (proj1 (proj2 (malformed_signature_is_no_error Demo.node "HS256"
                            (JStr "secret") "msg"
                            "c2VjcmV0bXNnAAAAAAAAAAAAAAAAAAAAAAAAAAAAAAA")
                     eq_refl eq_refl
                     (Demo.fit 32 (list_byte_of_string "secretmsg")) eq_refl) _).
    vm_compute. reflexivity.
Defined.

(** C6 (as stated) fails twice.  A signature text that is no base64 at all
    raises nothing: it is read as the empty byte sequence and the HMAC
    verification returns [false].  And flipping a bit that base64 does not
    use (bit 1 of the last character of a 43-character MAC text, [A] to [C])
    leaves a well-formed text that reads as the same bytes, so that
    verification returns [true]. *)
Lemma lenient_base64_reader :
  run (verifySignature Demo.node "HS256" (JStr "secret") "msg" "%%%=")
  = (Returns false,
     [CreateHmac "SHA256" (JStr "secret") "msg";
      TimingSafeEqual (Demo.fit 32 (list_byte_of_string "secretmsg")) []])
  /\ fst (run (createSignature Demo.node "HS256" (JStr "secret") "msg"))
     = Returns "c2VjcmV0bXNnAAAAAAAAAAAAAAAAAAAAAAAAAAAAAAA"
  /\ flip_bit 42 1 "c2VjcmV0bXNnAAAAAAAAAAAAAAAAAAAAAAAAAAAAAAA"
     = "c2VjcmV0bXNnAAAAAAAAAAAAAAAAAAAAAAAAAAAAAAC"
  /\ fst (run (verifySignature Demo.node "HS256" (JStr "secret") "msg"
                 "c2VjcmV0bXNnAAAAAAAAAAAAAAAAAAAAAAAAAAAAAAC"))
     = Returns true.
Proof.
  split; [vm_compute; reflexivity |].
  split; [vm_compute; reflexivity |].
  split; vm_compute; reflexivity.
Qed.

(** ** Signing, then verifying *)

(** Text that went through the replacer holds none of [=], [+], [/]. *)
Lemma String_replace_idempotent (s : string) :
  String_replace base64UrlMatcher base64UrlReplacer
    (String_replace base64UrlMatcher base64UrlReplacer s)
  = String_replace base64UrlMatcher base64UrlReplacer s.
Proof.
  rewrite !String_replace_spec.
  induction s as [| c rest IH]; [reflexivity |].
  cbn [spec_substitute].
  destruct (Ascii.eqb c "=") eqn:E1; [exact IH |].
  destruct (Ascii.eqb c "+") eqn:E2; [cbn; now rewrite IH |].
  destruct (Ascii.eqb c "/") eqn:E3; [cbn; now rewrite IH |].
  cbn [spec_substitute]. now rewrite E1, E2, E3, IH.
Qed.

Lemma pkcs1_sign_options_key (sk : jsval) (name : string) :
  name <> "padding" -> name <> "saltLength" ->
  obj_get name (pkcs1_sign_options sk) = obj_get name (private_key_object sk).
Proof.
  intros Hp Hs. unfold pkcs1_sign_options.
  now rewrite !obj_get_set_other by assumption.
Qed.

Lemma pss_sign_options_key (sk : jsval) (name : string) :
  name <> "padding" -> name <> "saltLength" ->
  obj_get name (pss_sign_options sk) = obj_get name (private_key_object sk).
Proof.
  intros Hp Hs. unfold pss_sign_options.
  rewrite !obj_get_set_other by assumption.
  now apply pkcs1_sign_options_key.
Qed.

(** Overwriting the padding and salt length of the PKCS#1 options gives an
    object with the properties of the PSS options made in one go. *)
Lemma pss_sign_options_properties (sk : jsval) :
  same_properties (pss_sign_options sk)
    (sign_options sk RSA_PKCS1_PSS_PADDING RSA_PSS_SALTLEN_DIGEST).
Proof.
  intros name. unfold pss_sign_options, pkcs1_sign_options, sign_options.
  destruct (string_dec name "saltLength") as [-> | Hs].
  - now rewrite !obj_get_set_same.
  - rewrite !(obj_get_set_other name "saltLength") by assumption.
    destruct (string_dec name "padding") as [-> | Hp].
    + now rewrite !obj_get_set_same.
    + now rewrite !obj_get_set_other by assumption.
Qed.

(** C1: with keys that are valid for the algorithm, [createSignature]
    returns a signature, and [verifySignature] with the matching key returns
    [true] on it. *)
Theorem sign_then_verify (rt : Runtime) (algorithm : string) (sk pk : jsval)
    (input : string) :
  valid_keys rt algorithm sk pk input ->
  exists wire,
    fst (run (createSignature rt algorithm sk input)) = Returns wire
    /\ fst (run (verifySignature rt algorithm pk input wire)) = Returns true.
Proof.
  unfold valid_keys. destruct (family_of algorithm) eqn:Hf.
  - intros (-> & Hk & mac & Hmac).
    exists (toUrlSafe mac). split.
    + now rewrite (sign_hmac_path rt _ sk input Hf Hk), Hmac.
    + rewrite (verify_hmac_path rt _ sk input _ Hf Hk), Hmac.
      rewrite Base64Facts.decode_toUrlSafe. cbn [fst]. f_equal.
      now apply guarded_comparison.
  - intros (Hk & directSign & directVerify & sig & Hds & Hdv & Hsig & Hok).
    exists (toUrlSafe sig). split.
    + now rewrite (sign_eddsa_path rt _ sk input _ Hf Hds Hk), Hsig.
    + rewrite (verify_eddsa_path rt _ pk input _ _ Hf Hdv).
      now rewrite Base64Facts.decode_toUrlSafe, Hok.
  - intros (Hk & Hpk & Hpair).
    destruct (Hpair RSA_PSS_SALTLEN_MAX_SIGN RSA_PSS_SALTLEN_AUTO
                (pkcs1_sign_options sk)
                (verify_options pk RSA_PKCS1_PADDING RSA_PSS_SALTLEN_AUTO) input)
      as (sig & Hsig & Hok).
    + now right.
    + now right.
    + left. discriminate.
    + intros name. reflexivity.
    + intros name. reflexivity.
    + exists (toUrlSafe sig). split.
      * now rewrite (sign_pkcs1_path rt _ sk input Hf Hk), Hsig.
      * rewrite (verify_pkcs1_path rt _ pk input _ Hf Hpk).
        rewrite Base64Facts.decode_toUrlSafe.
        unfold verify_options in Hok. now rewrite Hok.
  - intros (Hk & Hpk & Hpair).
    destruct (Hpair RSA_PSS_SALTLEN_DIGEST RSA_PSS_SALTLEN_DIGEST
                (pss_sign_options sk)
                (verify_options pk RSA_PKCS1_PSS_PADDING RSA_PSS_SALTLEN_DIGEST) input)
      as (sig & Hsig & Hok).
    + now left.
    + now left.
    + right. now right.
    + apply pss_sign_options_properties.
    + intros name. reflexivity.
    + exists (toUrlSafe sig). split.
      * now rewrite (sign_pss_path rt _ sk input Hf Hk), Hsig.
      * rewrite (verify_pss_path rt _ pk input _ Hf Hpk).
        rewrite Base64Facts.decode_toUrlSafe.
        unfold verify_options in Hok. now rewrite Hok.
  - intros (Hk & Hpk & Hpair).
    destruct (Hpair RSA_PSS_SALTLEN_MAX_SIGN RSA_PSS_SALTLEN_AUTO
                (pkcs1_sign_options sk)
                (verify_options pk RSA_PKCS1_PADDING RSA_PSS_SALTLEN_AUTO) input)
      as (der & jose & der' & Hsig & Hjose & Hder & Hok).
    + now right.
    + now right.
    + left. discriminate.
    + intros name. reflexivity.
    + intros name. reflexivity.
    + exists (toUrlSafe jose). split.
      * rewrite (sign_ecdsa_path rt _ sk input Hf Hk), Hsig, Hjose.
        cbn [fst rethrow outcome_map]. f_equal.
        apply String_replace_idempotent.
      * rewrite (verify_ecdsa_path rt _ pk input _ Hf Hpk).
        rewrite Base64Facts.decode_toUrlSafe, Hder.
        unfold verify_options in Hok. now rewrite Hok.
Qed.

(** The stand-in runtime keeps the promises [valid_keys] asks of a runtime. *)

Lemma demo_tag_accepted (n : nat) (padding sign_salt verify_salt : Z) :
  salt_accepted padding sign_salt verify_salt ->
  Demo.auto_salt (JNum padding) (JNum verify_salt)
  || Byte.eqb (Demo.tag_byte (Demo.salt_tag n (JNum padding) (JNum sign_salt)))
       (Demo.tag_byte (Demo.salt_tag n (JNum padding) (JNum verify_salt))) = true.
Proof.
  intros [Hno | [-> | ->]].
  - assert (Hpss : Demo.is_pss (JNum padding) = false)
      by (cbn; now apply Z.eqb_neq).
    unfold Demo.salt_tag. rewrite Hpss.
    apply orb_true_iff. right. now apply Byte.byte_dec_lb.
  - unfold Demo.auto_salt, Demo.salt_tag.
    destruct (Demo.is_pss (JNum padding)); [reflexivity |].
    apply orb_true_iff. right. now apply Byte.byte_dec_lb.
  - apply orb_true_iff. right. now apply Byte.byte_dec_lb.
Qed.

Lemma demo_key_pair (scheme pem : string) (padding : Z) (n : nat) :
  Demo.digest_length (slice_from scheme 4) = Some n ->
  key_pair Demo.node scheme padding (JStr pem) (JStr pem).
Proof.
  intros Hn sign_salt verify_salt so vo input _ _ Hsalt Hso Hvo.
  cbn [Demo.node rt_createSign rt_createVerify].
  unfold Demo.createSign, Demo.createVerify, Demo.digest.
  rewrite (Hso "key"), (Hso "padding"), (Hso "saltLength").
  rewrite (Hvo "key"), (Hvo "padding"), (Hvo "saltLength").
  change (obj_get "key" (sign_options (JStr pem) padding sign_salt)) with (JStr pem).
  change (obj_get "padding" (sign_options (JStr pem) padding sign_salt))
    with (JNum padding).
  change (obj_get "saltLength" (sign_options (JStr pem) padding sign_salt))
    with (JNum sign_salt).
  change (obj_get "key" (verify_options (JStr pem) padding verify_salt))
    with (JStr pem).
  change (obj_get "padding" (verify_options (JStr pem) padding verify_salt))
    with (JNum padding).
  change (obj_get "saltLength" (verify_options (JStr pem) padding verify_salt))
    with (JNum verify_salt).
  rewrite Hn. cbn [Demo.key_bytes].
  eexists. split; [reflexivity |].
  cbv iota. f_equal. apply andb_true_iff. split.
  - now apply demo_tag_accepted.
  - now apply bytes_eqb_eq.
Qed.

Lemma demo_ecdsa_key_pair (algorithm scheme pem : string) (padding : Z) (n : nat) :
  Demo.digest_length (slice_from scheme 4) = Some n ->
  ecdsa_key_pair Demo.node algorithm scheme padding (JStr pem) (JStr pem).
Proof.
  intros Hn sign_salt verify_salt so vo input Hs Hv Hsalt Hso Hvo.
  destruct (demo_key_pair scheme pem padding n Hn sign_salt verify_salt so vo input
              Hs Hv Hsalt Hso Hvo) as (der & Hsig & Hok).
  exists der, (rev der), der. repeat apply conj.
  - exact Hsig.
  - cbn [Demo.node rt_derToJose]. unfold Demo.derToJose.
    now rewrite Base64Facts.decode_encode.
  - cbn [Demo.node rt_joseToDer]. unfold Demo.joseToDer.
    now rewrite rev_involutive.
  - exact Hok.
Qed.

Lemma sign_then_verify_witness :
  (exists wire,
     fst (run (createSignature Demo.node "HS256" (JStr "secret") "msg")) = Returns wire
     /\ fst (run (verifySignature Demo.node "HS256" (JStr "secret") "msg" wire))
        = Returns true)
  /\ (exists wire,
        fst (run (createSignature Demo.node "RS512" (JStr "pem") "msg")) = Returns wire
        /\ fst (run (verifySignature Demo.node "RS512" (JStr "pem") "msg" wire))
           = Returns true)
  /\ (exists wire,
        fst (run (createSignature Demo.node "PS384" (JStr "pem") "msg")) = Returns wire
        /\ fst (run (verifySignature Demo.node "PS384" (JStr "pem") "msg" wire))
           = Returns true)
  /\ (exists wire,
        fst (run (createSignature Demo.node "ES256" (JStr "pem") "msg")) = Returns wire
        /\ fst (run (verifySignature Demo.node "ES256" (JStr "pem") "msg" wire))
           = Returns true)
  /\ (exists wire,
        fst (run (createSignature Demo.node "EdDSA"
                    (JObj [("key", JStr "pem"); ("passphrase", JStr "pw")]) "msg"))
        = Returns wire
        /\ fst (run (verifySignature Demo.node "EdDSA" (JStr "pem") "msg" wire))
           = Returns true).
Proof.
  split; [| split; [| split; [| split]]].
  - apply (sign_then_verify Demo.node "HS256" (JStr "secret") (JStr "secret") "msg").
    split; [reflexivity |]. split; [reflexivity |].
    eexists. reflexivity.
  - apply (sign_then_verify Demo.node "RS512" (JStr "pem") (JStr "pem") "msg").
    split; [reflexivity |]. split; [reflexivity |].
    apply (demo_key_pair _ _ _ 64). reflexivity.
  - apply (sign_then_verify Demo.node "PS384" (JStr "pem") (JStr "pem") "msg").
    split; [reflexivity |]. split; [reflexivity |].
    apply (demo_key_pair _ _ _ 48). reflexivity.
  - apply (sign_then_verify Demo.node "ES256" (JStr "pem") (JStr "pem") "msg").
    split; [reflexivity |]. split; [reflexivity |].
    apply (demo_ecdsa_key_pair _ _ _ _ 32). reflexivity.
  - apply (sign_then_verify Demo.node "EdDSA"
             (JObj [("key", JStr "pem"); ("passphrase", JStr "pw")]) (JStr "pem") "msg").
    split; [reflexivity |].
    eexists. eexists. eexists.
    split; [reflexivity |]. split; [reflexivity |].
    split; [reflexivity |]. vm_compute. reflexivity.
Defined.

(** * Further properties of [src/crypto.js] *)

(** ** The replacer and the wire form *)

Lemma String_replace_url_safe (s : string) :
  url_safe (String_replace base64UrlMatcher base64UrlReplacer s) = true.
Proof.
  rewrite String_replace_spec.
  induction s as [| d rest IH]; [reflexivity |].
  cbn [spec_substitute].
  destruct (Ascii.eqb d "=") eqn:E1; [exact IH |].
  destruct (Ascii.eqb d "+") eqn:E2; [cbn; exact IH |].
  destruct (Ascii.eqb d "/") eqn:E3; [cbn; exact IH |].
  cbn [url_safe]. unfold base64UrlMatcher. now rewrite E1, E2, E3, IH.
Qed.

(** The pattern and the map agree: the replacer has an entry for every
    character the pattern matches, so [replace] never prints [undefined];
    what it returns holds none of [=], [+], [/], and replacing once more
    changes nothing. *)
Theorem replacer_covers_matcher (c : ascii) (s : string) :
  (base64UrlMatcher c = true <-> encoderMap c <> None)
  /\ url_safe (String_replace base64UrlMatcher base64UrlReplacer s) = true
  /\ String_replace base64UrlMatcher base64UrlReplacer
       (String_replace base64UrlMatcher base64UrlReplacer s)
     = String_replace base64UrlMatcher base64UrlReplacer s.
Proof.
  split; [| split].
  - unfold base64UrlMatcher, encoderMap.
    destruct (Ascii.eqb c "="); [cbn; split; [discriminate | reflexivity] |].
    destruct (Ascii.eqb c "+"); [cbn; split; [discriminate | reflexivity] |].
    destruct (Ascii.eqb c "/"); cbn; split; try discriminate; try reflexivity.
    intros H. now contradiction H.
  - apply String_replace_url_safe.
  - apply String_replace_idempotent.
Qed.

Lemma replaced_digit_length (v : N) (rest : string) :
  (v < 64)%N ->
  String.length
    (String_replace base64UrlMatcher base64UrlReplacer (String (Base64.digit v) rest))
  = S (String.length (String_replace base64UrlMatcher base64UrlReplacer rest)).
Proof.
  intros Hv.
  assert (Hin : In (N.to_nat v) (seq 0 64)) by (apply in_seq; lia).
  rewrite <- (N2Nat.id v). revert Hin. generalize (N.to_nat v) as n.
  intros n Hin. cbv [seq] in Hin.
  repeat (destruct Hin as [<- | Hin]; [reflexivity | ]).
  destruct Hin.
Qed.

(** The wire form carries no padding: [n] bytes make the [4n/3] characters
    of base64, rounded up, so 43 for a 32-byte MAC, 64 for 48 bytes and 86
    for 64. *)
Theorem wire_form_length (bytes : list byte) :
  String.length (toUrlSafe bytes) = (4 * List.length bytes + 2) / 3.
Proof.
  unfold toUrlSafe.
  induction bytes as [| a | a b | a b c rest IH] using Base64Facts.list_ind3.
  - reflexivity.
  - cbn [Base64.encode].
    rewrite replaced_digit_length by apply Base64Facts.sextet0_lt.
    change 0%N with (Byte.to_N x00).
    rewrite replaced_digit_length by apply Base64Facts.sextet1_lt.
    reflexivity.
  - cbn [Base64.encode].
    rewrite replaced_digit_length by apply Base64Facts.sextet0_lt.
    rewrite replaced_digit_length by apply Base64Facts.sextet1_lt.
    change 0%N with (Byte.to_N x00).
    rewrite replaced_digit_length by apply Base64Facts.sextet2_lt.
    reflexivity.
  - cbn [Base64.encode].
    rewrite replaced_digit_length by apply Base64Facts.sextet0_lt.
    rewrite replaced_digit_length by apply Base64Facts.sextet1_lt.
    rewrite replaced_digit_length by apply Base64Facts.sextet2_lt.
    rewrite replaced_digit_length by apply Base64Facts.sextet3_lt.
    rewrite IH. cbn [List.length].
    replace (4 * S (S (S (List.length rest))) + 2)
      with (4 * List.length rest + 2 + 4 * 3) by lia.
    rewrite Nat.div_add by discriminate. lia.
Qed.

(** Two byte sequences with the same wire form are the same bytes. *)
Theorem wire_form_injective (a b : list byte) :
  toUrlSafe a = toUrlSafe b -> a = b.
Proof.
  intros H.
  rewrite <- (Base64Facts.decode_toUrlSafe a), <- (Base64Facts.decode_toUrlSafe b).
  now rewrite H.
Qed.

Lemma wire_form_injective_witness : [x4d; x61] = [x4d; x61].
Proof.
  exact (wire_form_injective [x4d; x61] [x4d; x61] eq_refl).
Defined.

(** ** [validatePrivateKey] on every key *)

Lemma validatePrivateKey_total (algorithm : string) (key : jsval) (log : list call) :
  validatePrivateKey algorithm key log
  = (match private_key_defect algorithm key with
     | Some message => Throws (TokenError invalidKey message None)
     | None =>
         match key with
         | JNull => Throws (NativeError "TypeError")
         | _ => Returns (JObj (private_key_object key))
         end
     end, log).
Proof.
  destruct key; try reflexivity.
  rewrite validatePrivateKey_object. cbn [private_key_defect private_key_object].
  destruct (negb (is_string_or_buffer (obj_get "key" props))); [reflexivity |].
  now destruct (truthy (obj_get "passphrase" props)
                && negb (is_string_or_buffer (obj_get "passphrase" props))).
Qed.

Lemma private_key_shape_defect (algorithm : string) (key : jsval) :
  private_key_shape key = true <->
  private_key_defect algorithm key = None /\ key <> JNull.
Proof.
  destruct key; cbn; try (split; [discriminate | intros [H1 H2]; congruence]);
    try (split; [intros _; split; [reflexivity | discriminate] | reflexivity]).
  destruct (is_string_or_buffer (obj_get "key" props)); cbn.
  - destruct (truthy (obj_get "passphrase" props)); cbn.
    + destruct (is_string_or_buffer (obj_get "passphrase" props)); cbn;
        split; try discriminate; try (intros [H _]; discriminate);
        intros _; split; [reflexivity | discriminate].
    + split; [intros _; split; [reflexivity | discriminate] | reflexivity].
  - split; [discriminate | intros [H _]; discriminate].
Qed.

(** [validatePrivateKey] returns exactly on the keys of the private-key shape
    (bare key material, or an object with [key] material and a falsy, string
    or buffer [passphrase]), and what it returns is always an object with the
    key material under [key]: bare material wrapped as [{ key }], a key
    object as it is.  It calls nothing in [crypto]. *)
Theorem validatePrivateKey_returns_key_object (algorithm : string) (key v : jsval) :
  (fst (run (validatePrivateKey algorithm key)) = Returns v <->
   private_key_shape key = true /\ v = JObj (private_key_object key))
  /\ snd (run (validatePrivateKey algorithm key)) = []
  /\ (private_key_shape key = true ->
      is_string_or_buffer (obj_get "key" (private_key_object key)) = true).
Proof.
  unfold run. rewrite validatePrivateKey_total. cbn [fst snd].
  split; [| split; [reflexivity |]].
  - rewrite (private_key_shape_defect algorithm).
    destruct (private_key_defect algorithm key) as [m |].
    + split; [discriminate | intros [[H _] _]; discriminate].
    + destruct key;
        try (split; [intros [= <-]; repeat split; discriminate
                    | intros [_ ->]; reflexivity]).
      split; [discriminate | intros [[_ H] _]; congruence].
  - destruct key; try discriminate; try reflexivity.
    cbn. now intros [H _]%andb_true_iff.
Qed.

(** ** A [null] key *)

(** [typeof null] is ['object']: a [null] private key gets past the type
    test of [validatePrivateKey] and fails on reading [key.key].  So every
    asymmetric signing call with a [null] key (EdDSA where the runtime has
    it) fails with SignError around a [TypeError], not around InvalidKey,
    and calls nothing in [crypto]. *)
Theorem null_private_key_is_a_type_error (rt : Runtime) (algorithm input : string) :
  family_of algorithm <> HMAC ->
  (family_of algorithm = EdDSA -> rt_directSign rt <> None) ->
  run (createSignature rt algorithm JNull input)
  = (Throws (signFailure (NativeError "TypeError")), []).
Proof.
  intros Hh He.
  destruct (family_of algorithm) eqn:Hf; try congruence; enter; dispatch Hf;
    try reflexivity.
  destruct (rt_directSign rt); [reflexivity |]. now contradiction He.
Qed.

Lemma null_private_key_is_a_type_error_witness :
  run (createSignature Demo.node "RS256" JNull "msg")
  = (Throws (signFailure (NativeError "TypeError")), [])
  /\ run (createSignature Demo.node "EdDSA" JNull "msg")
     = (Throws (signFailure (NativeError "TypeError")), []).
Proof.
  split.
  - apply (null_private_key_is_a_type_error Demo.node "RS256" "msg");
      discriminate.
  - apply (null_private_key_is_a_type_error Demo.node "EdDSA" "msg");
      discriminate.
Defined.

(** ** Every run of the two functions *)

(** These close a goal [exists log, _ /\ _ /\ (_ \/ _)] about a run that is
    already a value, reading the log off it. *)
Ltac shape_thrown :=
  eexists; split; [| split]; [| | left; eexists; reflexivity];
  [reflexivity | cbn; lia].

Ltac shape_returned :=
  eexists; split; [| split]; [| | right; eexists; reflexivity];
  [reflexivity | cbn; lia].

Lemma createSignature_run_shape (rt : Runtime) (algorithm : string) (key : jsval)
    (input : string) :
  exists log,
    forallb signing_call log = true
    /\ List.length log <= 2
    /\ ((exists cause,
           run (createSignature rt algorithm key input)
           = (Throws (signFailure cause), log))
        \/ (exists text,
              run (createSignature rt algorithm key input)
              = (Returns (String_replace base64UrlMatcher base64UrlReplacer text), log))).
Proof.
  enter.
  unfold validateSecretOrPublicKey, createHmac, createSign, derToJose, invoke, ret, throw.
  cbv beta.
  destruct (slice algorithm 0 2 =? "HS").
  - destruct (instanceof_Buffer key || (typeof key =? "string")).
    + destruct (rt_createHmac rt _ key input); cbn [app];
        [shape_returned | shape_thrown].
    + shape_thrown.
  - destruct (slice algorithm 0 2 =? "Ed").
    + destruct (rt_directSign rt) as [ds |]; [| shape_thrown].
      rewrite validatePrivateKey_total.
      destruct (private_key_defect algorithm key); [shape_thrown |].
      destruct key; try shape_thrown;
        (destruct (ds (Buffer_from_utf8 input) _); cbn [app];
         [shape_returned | shape_thrown]).
    + rewrite validatePrivateKey_total.
      destruct (private_key_defect algorithm key); [shape_thrown |].
      assert (Hnull : key = JNull \/ key <> JNull)
        by (destruct key; (now left) || (right; discriminate)).
      destruct Hnull as [-> | Hnn]; [shape_thrown |].
      replace (match key with
               | JNull => Throws (NativeError "TypeError")
               | _ => Returns (JObj (private_key_object key))
               end) with (Returns (JObj (private_key_object key)))
        by (destruct key; congruence).
      cbn [spread app].
      match goal with
      | |- context [rt_createSign rt ?a ?o ?i] => destruct (rt_createSign rt a o i)
      end; cbn [app]; [| shape_thrown].
      destruct (slice algorithm 0 2 =? "ES"); cbn [app]; [| shape_returned].
      match goal with
      | |- context [rt_derToJose rt ?a ?b] => destruct (rt_derToJose rt a b)
      end; [shape_returned | shape_thrown].
Qed.

Lemma verifySignature_run_shape (rt : Runtime) (algorithm : string) (key : jsval)
    (input signature : string) :
  exists log,
    forallb verifying_call log = true
    /\ List.length log <= 2
    /\ ((exists cause,
           run (verifySignature rt algorithm key input signature)
           = (Throws (verifyFailure cause), log))
        \/ (exists b,
              run (verifySignature rt algorithm key input signature)
              = (Returns b, log))).
Proof.
  enter.
  unfold validateSecretOrPublicKey, createHmac, createVerify, joseToDer,
    timingSafeEqual, invoke, ret, throw.
  cbv beta.
  destruct (slice algorithm 0 2 =? "HS").
  - destruct (instanceof_Buffer key || (typeof key =? "string")); [| shape_thrown].
    destruct (rt_createHmac rt _ key input) as [mac | e]; cbn [app];
      [| shape_returned].
    destruct (Nat.eqb (List.length mac) (List.length (Base64.decode signature)));
      shape_returned.
  - destruct (slice algorithm 0 2 =? "Ed").
    + destruct (rt_directVerify rt) as [dv |]; [| shape_thrown].
      destruct (dv (Buffer_from_utf8 input) key _); [shape_returned | shape_thrown].
    + destruct (instanceof_Buffer key || (typeof key =? "string")); [| shape_thrown].
      destruct (slice algorithm 0 2 =? "PS"); cbn [app fst snd].
      * match goal with
        | |- context [rt_createVerify rt ?a ?o ?i ?s] =>
            destruct (rt_createVerify rt a o i s)
        end; [shape_returned | shape_thrown].
      * destruct (slice algorithm 0 2 =? "ES"); cbn [app fst snd].
        -- destruct (rt_joseToDer rt _ algorithm) as [der | e]; cbn [app fst snd];
             [| shape_thrown].
           match goal with
           | |- context [rt_createVerify rt ?a ?o ?i ?s] =>
               destruct (rt_createVerify rt a o i s)
           end; [shape_returned | shape_thrown].
        -- match goal with
           | |- context [rt_createVerify rt ?a ?o ?i ?s] =>
               destruct (rt_createVerify rt a o i s)
           end; [shape_returned | shape_thrown].
Qed.

(** Whatever the algorithm, key and message: when [createSignature] throws,
    it throws a SignError around the cause, and when it returns, the text
    holds none of [=], [+], [/]. *)
Theorem createSignature_outcomes (rt : Runtime) (algorithm : string) (key : jsval)
    (input : string) :
  (forall e,
     fst (run (createSignature rt algorithm key input)) = Throws e ->
     exists cause, e = signFailure cause)
  /\ (forall wire,
        fst (run (createSignature rt algorithm key input)) = Returns wire ->
        url_safe wire = true).
Proof.
  destruct (createSignature_run_shape rt algorithm key input)
    as (log & _ & _ & [[cause ->] | [text ->]]); cbn [fst]; split.
  - intros e [= <-]. now exists cause.
  - discriminate.
  - discriminate.
  - intros wire [= <-]. apply String_replace_url_safe.
Qed.

(** A signing run calls at most two operations outside the file, none of
    them a verifier, a comparison or [joseToDer]; a verifying run calls at
    most two, none of them a signer or [derToJose]. *)
Theorem calls_of_a_run (rt : Runtime) (algorithm : string) (key : jsval)
    (input signature : string) :
  (forallb signing_call (snd (run (createSignature rt algorithm key input))) = true
   /\ List.length (snd (run (createSignature rt algorithm key input))) <= 2)
  /\ (forallb verifying_call
        (snd (run (verifySignature rt algorithm key input signature))) = true
      /\ List.length (snd (run (verifySignature rt algorithm key input signature)))
         <= 2).
Proof.
  split.
  - destruct (createSignature_run_shape rt algorithm key input)
      as (log & Hall & Hlen & [[cause ->] | [text ->]]); now split.
  - destruct (verifySignature_run_shape rt algorithm key input signature)
      as (log & Hall & Hlen & [[cause ->] | [b ->]]); now split.
Qed.

(** ** The options of the native signer *)

(** For RSA, RSA-PSS and ECDSA signing with a well-shaped key, the first
    call is [createSign] for [RSA-SHA] and the rest of the identifier, and
    its options carry the padding and salt length of the family whatever the
    key object holds under these names, and every other property of the key
    object (its [key], its [passphrase], anything else) unchanged. *)
Theorem sign_options_of_key_object (rt : Runtime) (algorithm : string)
    (key : jsval) (input : string) :
  family_of algorithm <> HMAC ->
  family_of algorithm <> EdDSA ->
  private_key_shape key = true ->
  exists options later,
    snd (run (createSignature rt algorithm key input))
    = CreateSign ("RSA-SHA" ++ slice_from algorithm 2) options input :: later
    /\ obj_get "padding" options
       = JNum (match family_of algorithm with
               | RSA_PSS => RSA_PKCS1_PSS_PADDING
               | _ => RSA_PKCS1_PADDING
               end)
    /\ obj_get "saltLength" options
       = JNum (match family_of algorithm with
               | RSA_PSS => RSA_PSS_SALTLEN_DIGEST
               | _ => RSA_PSS_SALTLEN_MAX_SIGN
               end)
    /\ (forall name,
          name <> "padding" -> name <> "saltLength" ->
          obj_get name options = obj_get name (private_key_object key)).
Proof.
  intros Hh He Hk.
  destruct (family_of algorithm) eqn:Hf; try congruence.
  - exists (pkcs1_sign_options key), [].
    rewrite (sign_pkcs1_path rt algorithm key input Hf Hk). cbn [snd].
    split; [reflexivity |]. unfold pkcs1_sign_options. repeat apply conj.
    + rewrite obj_get_set_other by discriminate. apply obj_get_set_same.
    + apply obj_get_set_same.
    + intros name Hp Hs. now rewrite !obj_get_set_other by assumption.
  - exists (pss_sign_options key), [].
    rewrite (sign_pss_path rt algorithm key input Hf Hk). cbn [snd].
    split; [reflexivity |]. repeat apply conj.
    + unfold pss_sign_options.
      rewrite obj_get_set_other by discriminate. apply obj_get_set_same.
    + unfold pss_sign_options. apply obj_get_set_same.
    + intros name Hp Hs. now apply pss_sign_options_key.
  - rewrite (sign_ecdsa_path rt algorithm key input Hf Hk).
    destruct (rt_createSign rt _ (pkcs1_sign_options key) input) as [der | e];
      cbn [snd]; eexists; eexists; (split; [reflexivity |]);
      unfold pkcs1_sign_options; repeat apply conj;
      try (rewrite obj_get_set_other by discriminate; apply obj_get_set_same);
      try apply obj_get_set_same;
      intros name Hp Hs; now rewrite !obj_get_set_other by assumption.
Qed.

Lemma sign_options_of_key_object_witness :
  exists options later,
    snd (run (createSignature Demo.node "RS256"
                (JObj [("key", JStr "pem"); ("padding", JNum 6);
                       ("passphrase", JStr "pw")]) "msg"))
    = CreateSign ("RSA-SHA" ++ slice_from "RS256" 2) options "msg" :: later
    /\ obj_get "padding" options
       = JNum (match family_of "RS256" with
               | RSA_PSS => RSA_PKCS1_PSS_PADDING
               | _ => RSA_PKCS1_PADDING
               end)
    /\ obj_get "saltLength" options
       = JNum (match family_of "RS256" with
               | RSA_PSS => RSA_PSS_SALTLEN_DIGEST
               | _ => RSA_PSS_SALTLEN_MAX_SIGN
               end)
    /\ (forall name,
          name <> "padding" -> name <> "saltLength" ->
          obj_get name options
          = obj_get name
              (private_key_object
                 (JObj [("key", JStr "pem"); ("padding", JNum 6);
                        ("passphrase", JStr "pw")]))).
Proof.
  apply (sign_options_of_key_object Demo.node "RS256"
           (JObj [("key", JStr "pem"); ("padding", JNum 6);
                  ("passphrase", JStr "pw")]) "msg");
    [discriminate | discriminate | reflexivity].
Defined.

(** ** When the native HMAC fails *)

(** With a string or buffer secret, an exception of [createHmac] (an unknown
    digest such as the [SHA999] of [HS999], say) makes [createSignature] fail
    with SignError around it, but makes [verifySignature] return [false]: the
    inner [try] of the HMAC branch spans the MAC computation as well as the
    comparison. *)
Theorem hmac_failure_signs_error_verifies_false (rt : Runtime) (algorithm : string)
    (key : jsval) (input signature : string) (e : exn) :
  family_of algorithm = HMAC ->
  is_string_or_buffer key = true ->
  rt_createHmac rt ("SHA" ++ slice_from algorithm 2) key input = Throws e ->
  run (createSignature rt algorithm key input)
  = (Throws (signFailure e), [CreateHmac ("SHA" ++ slice_from algorithm 2) key input])
  /\ run (verifySignature rt algorithm key input signature)
     = (Returns false, [CreateHmac ("SHA" ++ slice_from algorithm 2) key input]).
Proof.
  intros Hf Hk He. split.
  - now rewrite (sign_hmac_path rt algorithm key input Hf Hk), He.
  - now rewrite (verify_hmac_path rt algorithm key input signature Hf Hk), He.
Qed.

Lemma hmac_failure_signs_error_verifies_false_witness :
  run (createSignature Demo.node "HS999" (JStr "secret") "msg")
  = (Throws (signFailure (NativeError "Error")),
     [CreateHmac "SHA999" (JStr "secret") "msg"])
  /\ run (verifySignature Demo.node "HS999" (JStr "secret") "msg" "AAAA")
     = (Returns false, [CreateHmac "SHA999" (JStr "secret") "msg"]).
Proof.
  exact (hmac_failure_signs_error_verifies_false Demo.node "HS999" (JStr "secret")
           "msg" "AAAA" (NativeError "Error") eq_refl eq_refl eq_refl).
Defined.

(** ** ECDSA: the signature converters *)

(** An ES verification with a string or buffer key converts the decoded
    signature with [joseToDer] first.  If the converter throws, the call
    fails with VerifyError around its error and the native verifier is never
    asked; otherwise the verifier is asked about the converted signature,
    with PKCS#1 padding and automatic salt length in the options, and its
    answer is the result. *)
Theorem ecdsa_verify_converts_first (rt : Runtime) (algorithm : string)
    (key : jsval) (input signature : string) :
  family_of algorithm = ECDSA ->
  is_string_or_buffer key = true ->
  (forall e,
     rt_joseToDer rt (fromUrlSafe signature) algorithm = Throws e ->
     run (verifySignature rt algorithm key input signature)
     = (Throws (verifyFailure e), [JoseToDer (fromUrlSafe signature) algorithm]))
  /\ (forall der,
        rt_joseToDer rt (fromUrlSafe signature) algorithm = Returns der ->
        run (verifySignature rt algorithm key input signature)
        = (rethrow verifyFailure
             (rt_createVerify rt ("RSA-SHA" ++ slice_from algorithm 2)
                [("key", key); ("padding", JNum RSA_PKCS1_PADDING);
                 ("saltLength", JNum RSA_PSS_SALTLEN_AUTO)]
                input der),
           [JoseToDer (fromUrlSafe signature) algorithm;
            CreateVerify ("RSA-SHA" ++ slice_from algorithm 2)
              [("key", key); ("padding", JNum RSA_PKCS1_PADDING);
               ("saltLength", JNum RSA_PSS_SALTLEN_AUTO)]
              input der])).
Proof.
  intros Hf Hk. unfold fromUrlSafe.
  split; [intros e He | intros der Hder];
    rewrite (verify_ecdsa_path rt algorithm key input signature Hf Hk);
    [now rewrite He | now rewrite Hder].
Qed.

Lemma ecdsa_verify_converts_first_witness :
  run (verifySignature Demo.node_checked "ES256" (JStr "pem") "msg" "AAAA")
  = (Throws (verifyFailure (NativeError "TypeError")),
     [JoseToDer [x00; x00; x00] "ES256"])
  /\ run (verifySignature Demo.node "ES256" (JStr "pem") "msg" "AAAA")
     = (Returns false,
        [JoseToDer [x00; x00; x00] "ES256";
         CreateVerify "RSA-SHA256"
           [("key", JStr "pem"); ("padding", JNum 1); ("saltLength", JNum (-2))]
           "msg" [x00; x00; x00]]).
Proof.
  split.
  - exact (proj1 (ecdsa_verify_converts_first Demo.node_checked "ES256" (JStr "pem")
                    "msg" "AAAA" eq_refl eq_refl)
             (NativeError "TypeError") eq_refl).
  - exact (proj2 (ecdsa_verify_converts_first Demo.node "ES256" (JStr "pem")
                    "msg" "AAAA" eq_refl eq_refl)
             [x00; x00; x00] eq_refl).
Defined.

(** An ES signing with a well-shaped key asks the native signer first, with
    PKCS#1 padding in the options.  If the signer throws, [derToJose] is not
    called; otherwise [derToJose] gets the base64 text of the signature and
    the whole algorithm identifier, and what it returns, passed through the
    replacer, is the result; an exception of the converter becomes a
    SignError. *)
Theorem ecdsa_sign_converts_last (rt : Runtime) (algorithm : string)
    (key : jsval) (input : string) :
  family_of algorithm = ECDSA ->
  private_key_shape key = true ->
  (forall e,
     rt_createSign rt ("RSA-SHA" ++ slice_from algorithm 2)
       (pkcs1_sign_options key) input = Throws e ->
     run (createSignature rt algorithm key input)
     = (Throws (signFailure e),
        [CreateSign ("RSA-SHA" ++ slice_from algorithm 2)
           (pkcs1_sign_options key) input]))
  /\ (forall der,
        rt_createSign rt ("RSA-SHA" ++ slice_from algorithm 2)
          (pkcs1_sign_options key) input = Returns der ->
        run (createSignature rt algorithm key input)
        = (rethrow signFailure
             (outcome_map (String_replace base64UrlMatcher base64UrlReplacer)
                (rt_derToJose rt (Base64.encode der) algorithm)),
           [CreateSign ("RSA-SHA" ++ slice_from algorithm 2)
              (pkcs1_sign_options key) input;
            DerToJose (Base64.encode der) algorithm])).
Proof.
  intros Hf Hk.
  split; [intros e He | intros der Hder];
    rewrite (sign_ecdsa_path rt algorithm key input Hf Hk);
    [now rewrite He | now rewrite Hder].
Qed.

Lemma ecdsa_sign_converts_last_witness :
  run (createSignature Demo.node "ES999" (JStr "pem") "msg")
  = (Throws (signFailure (NativeError "Error")),
     [CreateSign "RSA-SHA999"
        [("key", JStr "pem"); ("padding", JNum 1); ("saltLength", JNum (-2))] "msg"])
  /\ snd (run (createSignature Demo.node "ES256" (JStr "k") "m"))
     = [CreateSign "RSA-SHA256"
          [("key", JStr "k"); ("padding", JNum 1); ("saltLength", JNum (-2))] "m";
        DerToJose "AGttAAAAAAAAAAAAAAAAAAAAAAAAAAAAAAAAAAAAAAAA" "ES256"].
Proof.
  split.
  - exact (proj1 (ecdsa_sign_converts_last Demo.node "ES999" (JStr "pem") "msg"
                    eq_refl eq_refl)
             (NativeError "Error") eq_refl).
  - exact (f_equal snd
             (proj2 (ecdsa_sign_converts_last Demo.node "ES256" (JStr "k") "m"
                       eq_refl eq_refl)
                (Demo.tag_byte 0 :: Demo.fit 32 (list_byte_of_string "km")) eq_refl)).
Defined.

(** ** EdDSA: the one-shot primitives *)

(** Where the runtime has the one-shot primitives, an EdDSA signing with a
    well-shaped key makes one call, [sign] on the UTF-8 bytes of the message
    with the key exactly as the caller gave it (a key object is not unpacked,
    bare material is not wrapped), and returns the wire form of the answer;
    an EdDSA verification makes one call, [verify] on the bytes of the
    message, the key and the decoded signature, and returns its boolean.  An
    exception of either primitive comes back as SignError or VerifyError. *)
Theorem eddsa_one_shot_calls (rt : Runtime) (algorithm : string) (key : jsval)
    (input signature : string)
    (directSign : list byte -> jsval -> outcome (list byte))
    (directVerify : list byte -> jsval -> list byte -> outcome bool) :
  family_of algorithm = EdDSA ->
  rt_directSign rt = Some directSign ->
  rt_directVerify rt = Some directVerify ->
  (private_key_shape key = true ->
   run (createSignature rt algorithm key input)
   = (rethrow signFailure
        (outcome_map toUrlSafe (directSign (Buffer_from_utf8 input) key)),
      [DirectSign (Buffer_from_utf8 input) key]))
  /\ run (verifySignature rt algorithm key input signature)
     = (rethrow verifyFailure
          (directVerify (Buffer_from_utf8 input) key (fromUrlSafe signature)),
        [DirectVerify (Buffer_from_utf8 input) key (fromUrlSafe signature)]).
Proof.
  intros Hf Hs Hv. split.
  - intros Hk. exact (sign_eddsa_path rt algorithm key input directSign Hf Hs Hk).
  - exact (verify_eddsa_path rt algorithm key input signature directVerify Hf Hv).
Qed.

Lemma eddsa_one_shot_calls_witness :
  snd (run (createSignature Demo.node "EdDSA"
              (JObj [("key", JStr "pem"); ("passphrase", JStr "pw")]) "msg"))
  = [DirectSign [x6d; x73; x67]
       (JObj [("key", JStr "pem"); ("passphrase", JStr "pw")])]
  /\ run (verifySignature Demo.node "EdDSA" (JStr "pem") "msg" "AAAA")
     = (Returns false, [DirectVerify [x6d; x73; x67] (JStr "pem") [x00; x00; x00]]).
Proof.
  split.
  - exact (f_equal snd
             (proj1 (eddsa_one_shot_calls Demo.node "EdDSA"
                       (JObj [("key", JStr "pem"); ("passphrase", JStr "pw")])
                       "msg" "" Demo.directSign Demo.directVerify
                       eq_refl eq_refl eq_refl) eq_refl)).
  - exact (proj2 (eddsa_one_shot_calls Demo.node "EdDSA" (JStr "pem") "msg" "AAAA"
                    Demo.directSign Demo.directVerify eq_refl eq_refl eq_refl)).
Defined.

(** ** Signatures in padded base64 *)

Lemma verifySignature_reads_decoded (rt : Runtime) (algorithm : string)
    (key : jsval) (input s1 s2 : string) :
  Base64.decode s1 = Base64.decode s2 ->
  verifySignature rt algorithm key input s1 = verifySignature rt algorithm key input s2.
Proof.
  intros H. unfold verifySignature. cbv zeta. now rewrite H.
Qed.

(** [verifySignature] does not insist on the URL-safe form: given the
    standard base64 text of a signature, padding and [+] and [/] included,
    it does exactly what it does on the wire form of the same bytes. *)
Theorem padded_signature_is_verified_alike (rt : Runtime) (algorithm : string)
    (key : jsval) (input : string) (bytes : list byte) :
  run (verifySignature rt algorithm key input (Base64.encode bytes))
  = run (verifySignature rt algorithm key input (toUrlSafe bytes)).
Proof.
  unfold run.
  rewrite (verifySignature_reads_decoded rt algorithm key input
             (Base64.encode bytes) (toUrlSafe bytes)); [reflexivity |].
  now rewrite Base64Facts.decode_encode, Base64Facts.decode_toUrlSafe.
Qed.
